(** * The cargo task manager of vscode-rust

    A shallow embedding of [CargoTaskManager]
    (src/components/cargo/cargo_manager.ts) as an event-driven state machine:
    every method and every callback the class registers is a function on the
    manager's state, and the host (the editor, the child processes) drives
    them through [Event]s. *)

From stdpp Require Import gmap strings list fin_maps.

Open Scope string_scope.
Open Scope list_scope.
Open Scope Z_scope.

(** ** Argument vectors (runCargoWithCwd, lines 347-359) *)

Module Args.

(** The literal of line 354. *)
Definition jsonFlags : list string := ["--message-format"; "json"].

(** The [switch (command)] of lines 348-356: the [case] labels that fall
    through to the assignment, every other verb leaves the switch at once. *)
Definition supportsJson (command : string) : bool :=
  if String.eqb command "build" then true
  else if String.eqb command "check" then true
  else if String.eqb command "clippy" then true
  else if String.eqb command "test" then true
  else if String.eqb command "run" then true
  else false.

(** Lines 348-359: [args = ['--message-format', 'json'].concat(args)] for
    the verbs of the switch, then [args = [command].concat(args)]. *)
Definition taskArgs (command : string) (args : list string) : list string :=
  let args := if supportsJson command then jsonFlags ++ args else args in
  [command] ++ args.

(** invokeCargoCheckWithArgs, lines 230-238: the verb and the arguments
    chosen from the answer of the availability probe. *)
Definition checkInvocation (isAvailable : bool) (args : list string)
  : string * list string :=
  if isAvailable then ("check", args)
  else ("rustc", args ++ ["--"; "-Zno-trans"]).

(** checkCargoCheckAvailability, line 313: [exitCode === 0]. *)
Definition isAvailableFromExitCode (exitCode : Z) : bool := exitCode =? 0.

(** invokeCargoNew, line 259. *)
Definition newArgs (projectName : string) (isBin : bool) : list string :=
  ["new"; projectName; if isBin then "--bin" else "--lib"].

(** CrateType, lines 29-32. *)
Inductive CrateType := Application | Library.

(** invokeCargoInit, lines 182-195. *)
Definition initArgs (crateType : CrateType) (name : string) : list string :=
  ["init"; "--name"; name] ++
  match crateType with
  | Application => ["--bin"]
  | Library => ["--lib"]
  end.

End Args.

(** ** Collaborators that live outside cargo_manager.ts *)

(** The diagnostic parser (./diagnostic_parser) is imported, not defined, by
    the file: its record type and [parseLine] are parameters of the whole
    development.  [resolvePath baseDir path] is the publisher's path
    resolution. *)
Class Collaborators := {
  FileDiagnostic : Type;
  filePath : FileDiagnostic -> string;
  parseLine : string -> list FileDiagnostic;
  resolvePath : string -> string -> string;
}.

(** What the host answers when the manager asks: the working-directory
    resolver ([cwd()] returns a path or throws an error with a message) and
    the two configuration switches the manager reads. *)
Record Host := {
  cwd : string + string;
  shouldShowRunningCargoTaskOutputChannel : bool;
  showOutput : bool;
}.

(** [vscode.window.showErrorMessage] and [showInformationMessage]. *)
Inductive Message :=
| ErrorMessage (text : string)
| InformationMessage (text : string).

(** What [ChannelWrapper.append] receives.  The two lines that print a
    number (lines 399-400) keep the number instead of its rendering. *)
Inductive ChannelEntry :=
| Text (text : string)
| CompletedWithCode (exitCode : Z)
| ItTook (startTime : option Z) (endTime : Z).

(** ChannelWrapper, lines 34-52. *)
Record Channel := {
  content : list ChannelEntry;
  shown : bool;
}.

Module ChannelWrapper.
Definition append (message : ChannelEntry) (c : Channel) : Channel :=
    {| content := content c ++ [message]; shown := shown c |}.
Definition clear (c : Channel) : Channel :=
    {| content := []; shown := shown c |}.
Definition show (c : Channel) : Channel :=
    {| content := content c; shown := true |}.
End ChannelWrapper.

(** The characters the source writes as escapes in its literals. *)
Definition newline : string := String (Ascii.ascii_of_nat 10) EmptyString.

Definition quote : string := String (Ascii.ascii_of_nat 34) EmptyString.

(** Who created a [Task], which decides the callbacks it carries. *)
Inductive Owner :=
| OwnedBySlot                         (* runCargoWithCwd, line 361 *)
| OwnedByProbe (args : list string)   (* checkCargoCheckAvailability, line 309;
                                         [args] is what the continuation of
                                         line 229 closes over *)
| OwnedByScaffold.                    (* invokeCargoInit, invokeCargoNew *)

(** A [Task] whose [execute()] promise is still pending.  [startTime] is the
    closure variable of line 363. *)
Record Task := {
  task_args : list string;
  task_cwd : string;
  task_owner : Owner;
  startTime : option Z;
}.

(** A [runCargo] call suspended at the [await] of line 318. *)
Record Suspended := {
  susp_command : string;
  susp_args : list string;
  susp_force : bool;
}.

Definition isSlotTask (t : Task) : bool :=
  match task_owner t with OwnedBySlot => true | _ => false end.

Section Manager.
Context `{Collaborators}.

(** ** The diagnostic publisher *)

(** One call the manager made on the publisher, with the task on whose
    behalf it was made. *)
Inductive PublisherCall :=
| Cleared (task : nat)
| Published (task : nat) (fileDiagnostic : FileDiagnostic) (baseDir : string).

(** Modelled from the spec: DiagnosticPublisher (./diagnostic_publisher is
    imported, its source is absent).  PublishedSet maps a file path to the
    ordered sequence of diagnostics shown for it; [clearDiagnostics] empties
    it, [publishDiagnostic] resolves the path against the base directory and
    appends to that file's sequence.  [history] lists the calls received, the
    latest first. *)
Record Publisher := {
  published : gmap string (list FileDiagnostic);
  history : list PublisherCall;
}.

(** Modelled from the spec: the effect of [publish(diagnostic, baseDir)] on
    PublishedSet (section 4.4): the path is resolved against [baseDir], the
    diagnostic is appended to that file's sequence, nothing is replaced or
    de-duplicated. *)
Definition publish (fileDiagnostic : FileDiagnostic) (baseDir : string)
    (set : gmap string (list FileDiagnostic)) : gmap string (list FileDiagnostic) :=
  let path := resolvePath baseDir (filePath fileDiagnostic) in
  <[path := default [] (set !! path) ++ [fileDiagnostic]]> set.

(** Modelled from the spec: DiagnosticPublisher.clearDiagnostics, [clear()]
    of section 4.4, empties PublishedSet entirely. *)
Definition clearDiagnostics (task : nat) (p : Publisher) : Publisher :=
  {| published := ∅; history := Cleared task :: history p |}.

(** Modelled from the spec: DiagnosticPublisher.publishDiagnostic, [publish]
    of section 4.4. *)
Definition publishDiagnostic (task : nat) (fileDiagnostic : FileDiagnostic)
    (baseDir : string) (p : Publisher) : Publisher :=
  {| published := publish fileDiagnostic baseDir (published p);
     history := Published task fileDiagnostic baseDir :: history p |}.

(** ** The state of a CargoTaskManager and of the tasks it started *)

(** The fields of the class (lines 141-155) that change, the messages shown
    to the user, the host, and the runtime: the tasks whose [execute()] is
    pending (by identity), the [kill()] calls made so far (latest first), the
    [runCargo] calls suspended at line 318 and the lines handed to
    [parseLine] (latest first). *)
Record Manager := {
  currentTask : option nat;
  diagnosticPublishingEnabled : bool;
  diagnosticPublisher : Publisher;
  parserInput : list string;
  channel : Channel;
  statusBarShown : bool;
  messages : list Message;
  host : Host;
  tasks : gmap nat Task;
  nextTask : nat;
  killRequested : list nat;
  suspended : list Suspended;
}.

Definition set_currentTask (v : option nat) (s : Manager) : Manager :=
  {| currentTask := v;
     diagnosticPublishingEnabled := diagnosticPublishingEnabled s;
     diagnosticPublisher := diagnosticPublisher s;
     parserInput := parserInput s; channel := channel s;
     statusBarShown := statusBarShown s; messages := messages s;
     host := host s; tasks := tasks s; nextTask := nextTask s;
     killRequested := killRequested s; suspended := suspended s |}.

Definition set_diagnosticPublishingEnabled (v : bool) (s : Manager) : Manager :=
  {| currentTask := currentTask s;
     diagnosticPublishingEnabled := v;
     diagnosticPublisher := diagnosticPublisher s;
     parserInput := parserInput s; channel := channel s;
     statusBarShown := statusBarShown s; messages := messages s;
     host := host s; tasks := tasks s; nextTask := nextTask s;
     killRequested := killRequested s; suspended := suspended s |}.

Definition set_diagnosticPublisher (v : Publisher) (s : Manager) : Manager :=
  {| currentTask := currentTask s;
     diagnosticPublishingEnabled := diagnosticPublishingEnabled s;
     diagnosticPublisher := v;
     parserInput := parserInput s; channel := channel s;
     statusBarShown := statusBarShown s; messages := messages s;
     host := host s; tasks := tasks s; nextTask := nextTask s;
     killRequested := killRequested s; suspended := suspended s |}.

Definition set_parserInput (v : list string) (s : Manager) : Manager :=
  {| currentTask := currentTask s;
     diagnosticPublishingEnabled := diagnosticPublishingEnabled s;
     diagnosticPublisher := diagnosticPublisher s;
     parserInput := v; channel := channel s;
     statusBarShown := statusBarShown s; messages := messages s;
     host := host s; tasks := tasks s; nextTask := nextTask s;
     killRequested := killRequested s; suspended := suspended s |}.

Definition set_channel (v : Channel) (s : Manager) : Manager :=
  {| currentTask := currentTask s;
     diagnosticPublishingEnabled := diagnosticPublishingEnabled s;
     diagnosticPublisher := diagnosticPublisher s;
     parserInput := parserInput s; channel := v;
     statusBarShown := statusBarShown s; messages := messages s;
     host := host s; tasks := tasks s; nextTask := nextTask s;
     killRequested := killRequested s; suspended := suspended s |}.

Definition set_statusBarShown (v : bool) (s : Manager) : Manager :=
  {| currentTask := currentTask s;
     diagnosticPublishingEnabled := diagnosticPublishingEnabled s;
     diagnosticPublisher := diagnosticPublisher s;
     parserInput := parserInput s; channel := channel s;
     statusBarShown := v; messages := messages s;
     host := host s; tasks := tasks s; nextTask := nextTask s;
     killRequested := killRequested s; suspended := suspended s |}.

Definition set_messages (v : list Message) (s : Manager) : Manager :=
  {| currentTask := currentTask s;
     diagnosticPublishingEnabled := diagnosticPublishingEnabled s;
     diagnosticPublisher := diagnosticPublisher s;
     parserInput := parserInput s; channel := channel s;
     statusBarShown := statusBarShown s; messages := v;
     host := host s; tasks := tasks s; nextTask := nextTask s;
     killRequested := killRequested s; suspended := suspended s |}.

Definition set_host (v : Host) (s : Manager) : Manager :=
  {| currentTask := currentTask s;
     diagnosticPublishingEnabled := diagnosticPublishingEnabled s;
     diagnosticPublisher := diagnosticPublisher s;
     parserInput := parserInput s; channel := channel s;
     statusBarShown := statusBarShown s; messages := messages s;
     host := v; tasks := tasks s; nextTask := nextTask s;
     killRequested := killRequested s; suspended := suspended s |}.

Definition set_tasks (v : gmap nat Task) (s : Manager) : Manager :=
  {| currentTask := currentTask s;
     diagnosticPublishingEnabled := diagnosticPublishingEnabled s;
     diagnosticPublisher := diagnosticPublisher s;
     parserInput := parserInput s; channel := channel s;
     statusBarShown := statusBarShown s; messages := messages s;
     host := host s; tasks := v; nextTask := nextTask s;
     killRequested := killRequested s; suspended := suspended s |}.

Definition set_nextTask (v : nat) (s : Manager) : Manager :=
  {| currentTask := currentTask s;
     diagnosticPublishingEnabled := diagnosticPublishingEnabled s;
     diagnosticPublisher := diagnosticPublisher s;
     parserInput := parserInput s; channel := channel s;
     statusBarShown := statusBarShown s; messages := messages s;
     host := host s; tasks := tasks s; nextTask := v;
     killRequested := killRequested s; suspended := suspended s |}.

Definition set_killRequested (v : list nat) (s : Manager) : Manager :=
  {| currentTask := currentTask s;
     diagnosticPublishingEnabled := diagnosticPublishingEnabled s;
     diagnosticPublisher := diagnosticPublisher s;
     parserInput := parserInput s; channel := channel s;
     statusBarShown := statusBarShown s; messages := messages s;
     host := host s; tasks := tasks s; nextTask := nextTask s;
     killRequested := v; suspended := suspended s |}.

Definition set_suspended (v : list Suspended) (s : Manager) : Manager :=
  {| currentTask := currentTask s;
     diagnosticPublishingEnabled := diagnosticPublishingEnabled s;
     diagnosticPublisher := diagnosticPublisher s;
     parserInput := parserInput s; channel := channel s;
     statusBarShown := statusBarShown s; messages := messages s;
     host := host s; tasks := tasks s; nextTask := nextTask s;
     killRequested := killRequested s; suspended := v |}.

(** The constructor, lines 157-175, for a given host. *)
Definition init (h : Host) : Manager :=
  {| currentTask := None;
     diagnosticPublishingEnabled := true;
     diagnosticPublisher := {| published := ∅; history := [] |};
     parserInput := [];
     channel := {| content := []; shown := false |};
     statusBarShown := false;
     messages := [];
     host := h;
     tasks := ∅;
     nextTask := 0%nat;
     killRequested := [];
     suspended := [] |}.

(** ** Tasks *)

(** Modelled from the spec: Task (./task is imported, its source is absent).
    [new Task(...)] followed by [execute()] makes the task pending under a
    fresh identity; [kill()] only requests termination, the task ends later
    with an event of its own; a pending task delivers [started] and [line]
    events and then exactly one of [exited(code)] and [failed(error)]. *)
Definition execute (t : Task) (s : Manager) : Manager :=
  set_nextTask (S (nextTask s)) (set_tasks (<[nextTask s := t]> (tasks s)) s).

(** Modelled from the spec: Task.kill (section 4.1) requests termination and
    does nothing else at once; the request is recorded. *)
Definition kill (task : nat) (s : Manager) : Manager :=
  set_killRequested (task :: killRequested s) s.

(** Modelled from the spec: the [execute()] promise of a task settles once
    (section 4.1: exactly one terminal event), after which the task reports
    nothing more. *)
Definition settle (task : nat) (s : Manager) : Manager :=
  set_tasks (delete task (tasks s)) s.

Definition channelAppend (e : ChannelEntry) (s : Manager) : Manager :=
  set_channel (ChannelWrapper.append e (channel s)) s.

(** ** The methods of CargoTaskManager *)

(** setDiagnosticPublishingEnabled, lines 177-179. *)
Definition setDiagnosticPublishingEnabled (enabled : bool) (s : Manager) : Manager :=
  set_diagnosticPublishingEnabled enabled s.

(** runCargoWithCwd, lines 340-361 and 390, 420: everything the call does
    before it returns. *)
Definition runCargoWithCwd (command : string) (args : list string)
    (cwd : string) (s : Manager) : Manager :=
  let s := set_diagnosticPublisher
             (clearDiagnostics (nextTask s) (diagnosticPublisher s)) s in
  let s := if shouldShowRunningCargoTaskOutputChannel (host s)
           then set_channel (ChannelWrapper.show (channel s)) s else s in
  let args := Args.taskArgs command args in
  let s := set_currentTask (Some (nextTask s)) s in
  let s := set_statusBarShown true s in
  execute {| task_args := args; task_cwd := cwd;
             task_owner := OwnedBySlot; startTime := None |} s.

(** runCargo, lines 316-338.  The first branch stops at the [await]: the
    rest of it runs when the [kill()] promise settles ([resume]). *)
Definition runCargo (command : string) (args : list string) (force : bool)
    (s : Manager) : Manager :=
  match force, currentTask s with
  | true, Some task =>
      set_suspended
        (suspended s ++ [{| susp_command := command; susp_args := args;
                            susp_force := force |}])
        (kill task s)
  | _, Some _ => s
  | _, None =>
      match cwd (host s) with
      | inl message => set_messages (messages s ++ [ErrorMessage message]) s
      | inr cwd => runCargoWithCwd command args cwd s
      end
  end.

(** Lines 320-322, after the [await]. *)
Definition resume (n : nat) (s : Manager) : option Manager :=
  match suspended s !! n with
  | Some call =>
      Some (runCargo (susp_command call) (susp_args call) (susp_force call)
              (set_suspended (delete n (suspended s)) s))
  | None => None
  end.

(** invokeCargo, lines 298-300; invokeCargoBuildWithArgs, ...ClippyWithArgs,
    ...RunWithArgs and ...TestWithArgs are this call with their verb. *)
Definition invokeCargo (command : string) (args : list string) (s : Manager) : Manager :=
  runCargo command args true s.

Definition invokeCargoBuildWithArgs (args : list string) : Manager -> Manager :=
  runCargo "build" args true.

Definition invokeCargoClippyWithArgs (args : list string) : Manager -> Manager :=
  runCargo "clippy" args true.

Definition invokeCargoRunWithArgs (args : list string) : Manager -> Manager :=
  runCargo "run" args true.

Definition invokeCargoTestWithArgs (args : list string) : Manager -> Manager :=
  runCargo "test" args true.

(** stopTask, lines 302-306. *)
Definition stopTask (s : Manager) : Manager :=
  match currentTask s with
  | Some task => kill task s
  | None => s
  end.

(** checkCargoCheckAvailability, lines 308-311, up to the [await]. *)
Definition checkCargoCheckAvailability (args : list string) (s : Manager) : Manager :=
  execute {| task_args := ["check"; "--help"]; task_cwd := "/";
             task_owner := OwnedByProbe args; startTime := None |} s.

(** invokeCargoCheckWithArgs, lines 228-242: the call itself, and the
    continuation that runs when the probe has exited with [exitCode]. *)
Definition invokeCargoCheckWithArgs (args : list string) (s : Manager) : Manager :=
  checkCargoCheckAvailability args s.

Definition onAvailabilityKnown (args : list string) (exitCode : Z) (s : Manager) : Manager :=
  let '(command, args) :=
    Args.checkInvocation (Args.isAvailableFromExitCode exitCode) args in
  runCargo command args true s.

(** invokeCargoNew, lines 256-280, and invokeCargoInit, lines 181-218, up to
    the [await]. *)
Definition invokeCargoNew (projectName : string) (isBin : bool) (cwd : string)
    (s : Manager) : Manager :=
  let s := set_channel (ChannelWrapper.clear (channel s)) s in
  let args := Args.newArgs projectName isBin in
  let s := if showOutput (host s)
           then set_channel (ChannelWrapper.show (channel s)) s else s in
  execute {| task_args := args; task_cwd := cwd;
             task_owner := OwnedByScaffold; startTime := None |} s.

Definition invokeCargoInit (crateType : Args.CrateType) (name : string)
    (cwd : string) (s : Manager) : Manager :=
  let args := Args.initArgs crateType name in
  let s := set_channel (ChannelWrapper.clear (channel s)) s in
  let s := if showOutput (host s)
           then set_channel (ChannelWrapper.show (channel s)) s else s in
  execute {| task_args := args; task_cwd := cwd;
             task_owner := OwnedByScaffold; startTime := None |} s.

(** ** The callbacks of a slot task (runCargoWithCwd, lines 363-420) *)

(** setStarted, lines 365-370. *)
Definition onStarted (task : nat) (t : Task) (now : Z) (s : Manager) : Manager :=
  let t := {| task_args := task_args t; task_cwd := task_cwd t;
              task_owner := task_owner t; startTime := Some now |} in
  let s := set_tasks (<[task := t]> (tasks s)) s in
  let s := set_channel (ChannelWrapper.clear (channel s)) s in
  channelAppend
    (Text ("Started cargo " ++ String.concat " " (task_args t) ++ newline)) s.

(** The loop of lines 376-380. *)
Definition publishEach (task : nat) (cwd : string)
    (fileDiagnostics : list FileDiagnostic) (s : Manager) : Manager :=
  fold_left
    (fun s fileDiagnostic =>
       if diagnosticPublishingEnabled s
       then set_diagnosticPublisher
              (publishDiagnostic task fileDiagnostic cwd (diagnosticPublisher s)) s
       else s)
    fileDiagnostics s.

(** setLineReceivedInStdout, lines 372-384. *)
Definition onLineReceivedInStdout (task : nat) (cwd : string) (line : string)
    (s : Manager) : Manager :=
  if String.prefix "{" line
  then
    let fileDiagnostics := parseLine line in
    publishEach task cwd fileDiagnostics
      (set_parserInput (line :: parserInput s) s)
  else channelAppend (Text (line ++ newline)) s.

(** setLineReceivedInStderr, lines 386-388; also both line callbacks of
    invokeCargoInit and invokeCargoNew. *)
Definition onLineReceivedInStderr (line : string) (s : Manager) : Manager :=
  channelAppend (Text (line ++ newline)) s.

(** onGracefullyEnded, lines 392-401. *)
Definition onGracefullyEnded (startTime : option Z) (exitCode endTime : Z)
    (s : Manager) : Manager :=
  let s := set_statusBarShown false s in
  let s := set_currentTask None s in
  let s := channelAppend (CompletedWithCode exitCode) s in
  channelAppend (ItTook startTime endTime) s.

Definition notInstalled : string :=
  "The " ++ quote ++ "cargo" ++ quote ++
  " command is not available. Make sure it is installed.".

(** onUnexpectedlyEnded, lines 403-418; [None] is a rejection without an
    error, [Some message] one with an [Error] whose message is given. *)
Definition onUnexpectedlyEnded (error : option string) (s : Manager) : Manager :=
  let s := set_statusBarShown false s in
  let s := set_currentTask None s in
  match error with
  | None => s
  | Some message =>
      if negb (String.eqb message "ENOENT") then s
      else set_messages (messages s ++ [InformationMessage notInstalled]) s
  end.

(** ** Events *)

(** What can happen to a manager: a call of one of its methods, a change of
    the host's answers, the settling of a [kill()] promise awaited at line
    318 (for the [n]-th suspended call), and what a pending task reports.
    [RunCargo] is the private method itself; the public entry points all pass
    [force = true]. *)
Inductive Event :=
| InvokeCargo (command : string) (args : list string)
| RunCargo (command : string) (args : list string) (force : bool)
| InvokeCargoCheckWithArgs (args : list string)
| InvokeCargoNew (projectName : string) (isBin : bool) (cwd : string)
| InvokeCargoInit (crateType : Args.CrateType) (name : string) (cwd : string)
| StopTask
| SetDiagnosticPublishingEnabled (enabled : bool)
| HostChanged (h : Host)
| KillSettled (n : nat)
| Started (task : nat) (now : Z)
| LineReceivedInStdout (task : nat) (line : string)
| LineReceivedInStderr (task : nat) (line : string)
| Exited (task : nat) (exitCode : Z) (now : Z)
| Failed (task : nat) (error : option string).

(** The callbacks each kind of task was given.  The probe has none; its
    [execute()] promise has a fulfilment continuation only (line 229). *)
Definition started (task : nat) (t : Task) (now : Z) (s : Manager) : Manager :=
  match task_owner t with
  | OwnedBySlot => onStarted task t now s
  | _ => s
  end.

Definition lineReceivedInStdout (task : nat) (t : Task) (line : string)
    (s : Manager) : Manager :=
  match task_owner t with
  | OwnedBySlot => onLineReceivedInStdout task (task_cwd t) line s
  | OwnedByScaffold => onLineReceivedInStderr line s
  | OwnedByProbe _ => s
  end.

Definition lineReceivedInStderr (t : Task) (line : string) (s : Manager) : Manager :=
  match task_owner t with
  | OwnedBySlot | OwnedByScaffold => onLineReceivedInStderr line s
  | OwnedByProbe _ => s
  end.

Definition exited (t : Task) (exitCode now : Z) (s : Manager) : Manager :=
  match task_owner t with
  | OwnedBySlot => onGracefullyEnded (startTime t) exitCode now s
  | OwnedByProbe args => onAvailabilityKnown args exitCode s
  | OwnedByScaffold => s
  end.

Definition failed (t : Task) (error : option string) (s : Manager) : Manager :=
  match task_owner t with
  | OwnedBySlot => onUnexpectedlyEnded error s
  | _ => s
  end.

(** One event; [None] when the event cannot happen in this state (a report
    from a task that is not pending, a settling nobody awaits). *)
Definition dispatch (e : Event) (s : Manager) : option Manager :=
  match e with
  | InvokeCargo command args => Some (invokeCargo command args s)
  | RunCargo command args force => Some (runCargo command args force s)
  | InvokeCargoCheckWithArgs args => Some (invokeCargoCheckWithArgs args s)
  | InvokeCargoNew projectName isBin cwd =>
      Some (invokeCargoNew projectName isBin cwd s)
  | InvokeCargoInit crateType name cwd =>
      Some (invokeCargoInit crateType name cwd s)
  | StopTask => Some (stopTask s)
  | SetDiagnosticPublishingEnabled enabled =>
      Some (setDiagnosticPublishingEnabled enabled s)
  | HostChanged h => Some (set_host h s)
  | KillSettled n => resume n s
  | Started task now =>
      match tasks s !! task with
      | Some t => Some (started task t now s)
      | None => None
      end
  | LineReceivedInStdout task line =>
      match tasks s !! task with
      | Some t => Some (lineReceivedInStdout task t line s)
      | None => None
      end
  | LineReceivedInStderr task line =>
      match tasks s !! task with
      | Some t => Some (lineReceivedInStderr t line s)
      | None => None
      end
  | Exited task exitCode now =>
      match tasks s !! task with
      | Some t => Some (exited t exitCode now (settle task s))
      | None => None
      end
  | Failed task error =>
      match tasks s !! task with
      | Some t => Some (failed t error (settle task s))
      | None => None
      end
  end.

Fixpoint run (events : list Event) (s : Manager) : option Manager :=
  match events with
  | [] => Some s
  | e :: events =>
      match dispatch e s with
      | Some s => run events s
      | None => None
      end
  end.

(** The states a manager built for host [h] can be in. *)
Definition reachable (h : Host) (s : Manager) : Prop :=
  exists events, run events (init h) = Some s.

(** The tasks that are running: those whose [execute()] is pending. *)
Definition running (s : Manager) : nat := size (tasks s).

Definition runningSlotTasks (s : Manager) : gmap nat Task :=
  filter (fun kt => isSlotTask kt.2 = true) (tasks s).

End Manager.

(** ** A concrete host and parser, to run the model *)

Module Demo.

(** A stand-in for the absent parser, used only to evaluate the manager on
    concrete traces: a diagnostic is the path of its file, a line [{path]
    yields one diagnostic for [path], and paths are resolved by joining. *)
#[local] Instance collaborators : Collaborators := {|
  FileDiagnostic := string;
  filePath := fun fileDiagnostic => fileDiagnostic;
  parseLine := fun line =>
    match line with
    | String _ path => [path]
    | EmptyString => []
    end;
  resolvePath := fun baseDir path => (baseDir ++ "/" ++ path)%string;
|}.

Definition host : Host :=
  {| cwd := inr "/work";
     shouldShowRunningCargoTaskOutputChannel := true;
     showOutput := true |}.

Definition hostWithoutWorkspace : Host :=
  {| cwd := inl "Current document not in the workspace";
     shouldShowRunningCargoTaskOutputChannel := true;
     showOutput := true |}.

Definition start : Manager := init host.

Definition startWithoutWorkspace : Manager := init hostWithoutWorkspace.

(** A build is running. *)
Definition afterBuild : Manager := invokeCargo "build" [] start.

(** A build is started, a test run is requested while it runs, the build
    still prints a line, ends without an error, the awaited kill settles,
    and the test run prints a line. *)
Definition restartTrace : list Event :=
  [InvokeCargo "build" []; InvokeCargo "test" [];
   LineReceivedInStdout 0 "{src/a.rs"; Failed 0 None; KillSettled 0;
   LineReceivedInStdout 1 "{src/b.rs"].

Definition afterRestart : Manager := default start (run restartTrace start).

(** The publish call of [task] for a diagnostic of the file [path]. *)
Definition publishCall (task : nat) (path : string) : PublisherCall :=
  Published task path "/work".

End Demo.

(** ** Histories of publisher calls *)

Section History.
Context `{Collaborators}.

(** The task of the latest [Cleared] call of a history (latest first). *)
Fixpoint lastCleared (calls : list PublisherCall) : option nat :=
  match calls with
  | [] => None
  | Cleared task :: _ => Some task
  | Published _ _ _ :: older => lastCleared older
  end.

(** The set a history of calls leaves behind. *)
Fixpoint replay (calls : list PublisherCall) : gmap string (list FileDiagnostic) :=
  match calls with
  | [] => ∅
  | Cleared _ :: _ => ∅
  | Published _ fileDiagnostic baseDir :: older =>
      publish fileDiagnostic baseDir (replay older)
  end.

Definition callTask (call : PublisherCall) : nat :=
  match call with Cleared task | Published task _ _ => task end.

(** Every publish call is made for the task of the latest clear before it,
    and every clear is made for a task younger than all tasks before it. *)
Fixpoint eachInItsRun (calls : list PublisherCall) : Prop :=
  match calls with
  | [] => True
  | Cleared task :: older =>
      Forall (fun call => (callTask call < task)%nat) older /\ eachInItsRun older
  | Published task _ _ :: older =>
      lastCleared older = Some task /\ eachInItsRun older
  end.

Definition isCleared (call : PublisherCall) : Prop :=
  match call with Cleared _ => True | Published _ _ _ => False end.

Definition publishedFor (task : nat) (call : PublisherCall) : Prop :=
  match call with Cleared _ => False | Published task' _ _ => task' = task end.

(** What holds of a manager between two events. *)
Record invariant (s : Manager) : Prop := {
  inv_fresh : forall task t,
    tasks s !! task = Some t -> (task < nextTask s)%nat;
  inv_slot_only : forall task t,
    tasks s !! task = Some t -> isSlotTask t = true -> currentTask s = Some task;
  inv_slot_pending : forall task,
    currentTask s = Some task ->
    exists t, tasks s !! task = Some t /\ isSlotTask t = true;
  inv_replay :
    published (diagnosticPublisher s) = replay (history (diagnosticPublisher s));
  inv_runs : eachInItsRun (history (diagnosticPublisher s));
  inv_current_run : forall task,
    currentTask s = Some task ->
    lastCleared (history (diagnosticPublisher s)) = Some task;
  inv_history_fresh :
    Forall (fun call => (callTask call < nextTask s)%nat)
      (history (diagnosticPublisher s));
}.

End History.

(** ** Bookkeeping the manager keeps between events *)

Section Bookkeeping.
Context `{Collaborators}.

(** The status bar items are shown while the slot is occupied; the parser
    has only seen lines that begin with a brace; a suspended call is a forced
    one; a task whose kill was requested is one the publisher was cleared
    for, that is, one started by runCargoWithCwd. *)
Record bookkeeping (s : Manager) : Prop := {
  bk_status_bar : statusBarShown s = true <-> is_Some (currentTask s);
  bk_parser : Forall (fun line => String.prefix "{" line = true) (parserInput s);
  bk_forced : Forall (fun call => susp_force call = true) (suspended s);
  bk_killed :
    Forall (fun task => Cleared task ∈ history (diagnosticPublisher s))
      (killRequested s);
}.

(** The task an event is a report of, and whether the report is its exit. *)
Definition reportOf (e : Event) : option nat :=
  match e with
  | Started task _ | LineReceivedInStdout task _ | LineReceivedInStderr task _
  | Exited task _ _ | Failed task _ => Some task
  | _ => None
  end.

Definition isExit (e : Event) : bool :=
  match e with Exited _ _ _ => true | _ => false end.

(** A task [t] was started from [s] without touching the slot: the state
    [s'] differs from [s] by the pending task, an emptied channel (shown if
    the host's showOutput says so) and nothing else the user sees. *)
Definition startedBeside (s s' : Manager) (t : Task) : Prop :=
  currentTask s' = currentTask s /\
  statusBarShown s' = statusBarShown s /\
  diagnosticPublisher s' = diagnosticPublisher s /\
  killRequested s' = killRequested s /\
  messages s' = messages s /\
  content (channel s') = [] /\
  shown (channel s') = shown (channel s) || showOutput (host s) /\
  tasks s' = <[nextTask s := t]> (tasks s).

Definition isLine (e : Event) : option string :=
  match e with
  | LineReceivedInStdout _ line | LineReceivedInStderr _ line => Some line
  | _ => None
  end.

End Bookkeeping.

(** ** CargoManager, the command facade (lines 424-672) *)

Section Facade.
Context `{Collaborators}.

(** [logger.debug] of a child logger with its prefix, and [logger.error]. *)
Inductive LogEntry :=
| LogDebug (loggerPrefix message : string)
| LogError (message : string).

(** The facade: its task manager, what it logged, the folders it asked the
    editor to open, and the continuations of line 664, each waiting for the
    [invokeCargoInit] promise of a task with the path it closes over. *)
Record CargoManager := {
  cargoManager : Manager;
  logged : list LogEntry;
  openedFolders : list string;
  playgrounds : gmap nat string;
}.

(** A [string | undefined] used as a condition: [undefined] and the empty
    string are false. *)
Definition truthy (value : option string) : option string :=
  match value with
  | None => None
  | Some EmptyString => None
  | Some text => Some text
  end.

Definition showErrorMessage (text : string) (s : Manager) : Manager :=
  set_messages (messages s ++ [ErrorMessage text]) s.

(** registerCommandHelpingCreateProject, lines 561-572: the command itself;
    the result says whether the input box was opened, and for which
    directory. *)
Definition createProjectCommand (rootPath : option string) (s : Manager)
    : Manager * option string :=
  match truthy rootPath with
  | None => (showErrorMessage "Current document not in the workspace" s, None)
  | Some cwd => (s, Some cwd)
  end.

(** Lines 573-579: the input box has answered. *)
Definition projectNameEntered (isBin : bool) (cwd : string)
    (name : option string) (s : Manager) : Manager :=
  match truthy name with
  | None => s
  | Some name => invokeCargoNew name isBin cwd s
  end.

(** The command and the answer of its input box, one after the other. *)
Definition createProject (isBin : bool) (rootPath name : option string)
    (s : Manager) : Manager :=
  match createProjectCommand rootPath s with
  | (s, Some cwd) => projectNameEntered isBin cwd name s
  | (s, None) => s
  end.

Definition withManager (m : Manager) (f : CargoManager) : CargoManager :=
  {| cargoManager := m; logged := logged f;
     openedFolders := openedFolders f; playgrounds := playgrounds f |}.

Definition log (entry : LogEntry) (f : CargoManager) : CargoManager :=
  {| cargoManager := cargoManager f; logged := logged f ++ [entry];
     openedFolders := openedFolders f; playgrounds := playgrounds f |}.

(** helpCreatePlayground, lines 642-648: the quick pick has answered; the
    result is the type a temporary directory is now requested for. *)
Definition playgroundTypePicked (playgroundProjectType : option string)
    (f : CargoManager) : CargoManager * option string :=
  match playgroundProjectType with
  | None =>
      (log (LogDebug "helpCreatePlayground: " "quick pick has been cancelled") f,
       None)
  | Some playgroundProjectType => (f, Some playgroundProjectType)
  end.

(** Lines 650-668: [tmp.dir] has answered with an error or a path. *)
Definition temporaryDirectoryCreated (playgroundProjectType : string)
    (result : string + string) (f : CargoManager) : CargoManager :=
  match result with
  | inl err =>
      let f := log (LogError ("Temporary directory creation failed: " ++ err)) f in
      withManager
        (showErrorMessage "Temporary directory creation failed" (cargoManager f)) f
  | inr path =>
      let crateType :=
        if String.eqb playgroundProjectType "application"
        then Args.Application else Args.Library in
      let name := ("playground_" ++ playgroundProjectType)%string in
      let task := nextTask (cargoManager f) in
      {| cargoManager := invokeCargoInit crateType name path (cargoManager f);
         logged := logged f;
         openedFolders := openedFolders f;
         playgrounds := <[task := path]> (playgrounds f) |}
  end.

Definition helpCreatePlayground (playgroundProjectType : option string)
    (result : string + string) (f : CargoManager) : CargoManager :=
  match playgroundTypePicked playgroundProjectType f with
  | (f, Some playgroundProjectType) =>
      temporaryDirectoryCreated playgroundProjectType result f
  | (f, None) => f
  end.

(** A task has exited: the manager's callbacks run, and the continuation of
    line 664, if the task has one, opens the folder. *)
Definition taskExited (task : nat) (exitCode now : Z) (f : CargoManager)
    : option CargoManager :=
  match dispatch (Exited task exitCode now) (cargoManager f) with
  | Some m =>
      Some {| cargoManager := m; logged := logged f;
              openedFolders :=
                match playgrounds f !! task with
                | Some path => openedFolders f ++ [path]
                | None => openedFolders f
                end;
              playgrounds := delete task (playgrounds f) |}
  | None => None
  end.

(** A task has failed: the promise of line 663 is rejected, its fulfilment
    continuation never runs. *)
Definition taskFailed (task : nat) (error : option string) (f : CargoManager)
    : option CargoManager :=
  match dispatch (Failed task error) (cargoManager f) with
  | Some m =>
      Some {| cargoManager := m; logged := logged f;
              openedFolders := openedFolders f;
              playgrounds := delete task (playgrounds f) |}
  | None => None
  end.

End Facade.

(** ** More concrete states *)

Module Scenario.

(** The slot task every scenario starts: a build in /work. *)
Definition buildTask : Task :=
  {| task_args := ["build"; "--message-format"; "json"]; task_cwd := "/work";
     task_owner := OwnedBySlot; startTime := None |}.

(** A build runs and a test run waits for its kill. *)
Definition awaitingKill : Manager :=
  default Demo.start
    (run [InvokeCargo "build" []; InvokeCargo "test" ["--lib"]] Demo.start).

(** A build runs and the workspace has gone. *)
Definition lostWorkspace : Manager :=
  default Demo.start
    (run [InvokeCargo "build" []; HostChanged Demo.hostWithoutWorkspace]
       Demo.start).

(** cargo new runs beside an empty slot. *)
Definition scaffolding : Manager :=
  default Demo.start (run [InvokeCargoNew "demo" true "/work"] Demo.start).

End Scenario.

(** * Properties *)

(** ** Evaluating the model *)

Example demo_run :
  exists s, run [InvokeCargo "build" []; LineReceivedInStdout 0 "{src/lib.rs"]
              Demo.start = Some s
            /\ published (diagnosticPublisher s) !! "/work/src/lib.rs"
               = Some ["src/lib.rs"]
            /\ currentTask s = Some 0%nat.
Proof. eexists. split; [reflexivity|]. split; reflexivity. Qed.

(** ** Argument vectors *)

Example taskArgs_build : Args.taskArgs "build" [] = ["build"; "--message-format"; "json"].
Proof. reflexivity. Qed.

Example taskArgs_doc : Args.taskArgs "doc" ["--open"] = ["doc"; "--open"].
Proof. reflexivity. Qed.

Lemma supportsJson_true command :
  Args.supportsJson command = true <->
  command ∈ ["build"; "check"; "clippy"; "test"; "run"].
Proof.
  unfold Args.supportsJson. rewrite !elem_of_cons, elem_of_nil.
  repeat
    match goal with
    | |- context [String.eqb command ?verb] =>
        destruct (String.eqb_spec command verb); [tauto|]
    end.
  split; [discriminate | tauto].
Qed.

Lemma supportsJson_false command :
  Args.supportsJson command = false <->
  command ∉ ["build"; "check"; "clippy"; "test"; "run"].
Proof.
  rewrite <- supportsJson_true. destruct (Args.supportsJson command); split;
    congruence.
Qed.

Lemma flags_not_neutral (args : list string) : Args.jsonFlags ++ args <> args.
Proof.
  intros E. apply (f_equal length) in E. rewrite length_app in E.
  simpl in E. lia.
Qed.

(** C6.  The task started by runCargoWithCwd gets the vector computed by
    lines 348-359; the JSON flags are put in front of the caller's arguments
    exactly for the verbs build, check, clippy, test and run, and for every
    other verb (doc, update, clean, bench, new, init among them) the vector
    is the verb followed by the caller's arguments, nothing inserted.  The
    vectors invokeCargoNew and invokeCargoInit build themselves do not carry
    the flags after the verb either. *)
Theorem json_flags_exactly_for_diagnostic_verbs `{Collaborators}
    (command : string) (args : list string) (cwd : string) (s : Manager) :
  task_args <$> tasks (runCargoWithCwd command args cwd s) !! nextTask s
    = Some (Args.taskArgs command args) /\
  (Args.taskArgs command args = [command] ++ ["--message-format"; "json"] ++ args
     <-> command ∈ ["build"; "check"; "clippy"; "test"; "run"]) /\
  (Args.taskArgs command args = [command] ++ args
     <-> command ∉ ["build"; "check"; "clippy"; "test"; "run"]) /\
  Forall (fun verb => Args.taskArgs verb args = [verb] ++ args)
    ["doc"; "update"; "clean"; "bench"; "new"; "init"] /\
  (forall projectName isBin rest,
     Args.newArgs projectName isBin
       <> ["new"] ++ ["--message-format"; "json"] ++ rest) /\
  (forall crateType name rest,
     Args.initArgs crateType name
       <> ["init"] ++ ["--message-format"; "json"] ++ rest).
Proof.
  split; [|split; [|split; [|split; [|split]]]].
  - unfold runCargoWithCwd, execute. simpl.
    destruct (shouldShowRunningCargoTaskOutputChannel (host s)); simpl;
      by rewrite lookup_insert_eq.
  - rewrite <- supportsJson_true. unfold Args.taskArgs.
    destruct (Args.supportsJson command); split; try done.
    intros E. injection E as E. by apply eq_sym, flags_not_neutral in E.
  - rewrite <- supportsJson_false. unfold Args.taskArgs.
    destruct (Args.supportsJson command); split; try done.
    intros E. injection E as E. by apply flags_not_neutral in E.
  - repeat constructor.
  - intros projectName isBin rest. unfold Args.newArgs.
    destruct isBin; simpl; congruence.
  - intros crateType name rest. unfold Args.initArgs.
    destruct crateType; simpl; congruence.
Qed.

(** C3, as the code has it.  With an empty slot and a working directory,
    running verb check with the caller's arguments [--lib] starts a task
    whose argument vector is check, --message-format, json, --lib: the verb
    comes first, then the JSON flags, then the caller's arguments. *)
Theorem check_lib_argument_vector `{Collaborators}
    (s : Manager) (force : bool) (dir : string) :
  currentTask s = None ->
  cwd (host s) = inr dir ->
  tasks (runCargo "check" ["--lib"] force s) !! nextTask s
    = Some {| task_args := ["check"; "--message-format"; "json"; "--lib"];
              task_cwd := dir; task_owner := OwnedBySlot; startTime := None |}.
Proof.
  intros Hslot Hcwd. unfold runCargo. rewrite Hslot, Hcwd.
  assert (E : tasks (runCargoWithCwd "check" ["--lib"] dir s) !! nextTask s
              = Some {| task_args := ["check"; "--message-format"; "json"; "--lib"];
                        task_cwd := dir; task_owner := OwnedBySlot;
                        startTime := None |}).
  { unfold runCargoWithCwd, execute. simpl.
    destruct (shouldShowRunningCargoTaskOutputChannel (host s)); simpl;
      by rewrite lookup_insert_eq. }
  by destruct force.
Qed.

Lemma check_lib_argument_vector_witness :
  tasks (runCargo "check" ["--lib"] true Demo.start) !! nextTask Demo.start
    = Some {| task_args := ["check"; "--message-format"; "json"; "--lib"];
              task_cwd := "/work"; task_owner := OwnedBySlot; startTime := None |}.
Proof.
  apply (check_lib_argument_vector Demo.start true "/work"); reflexivity.
Defined.

(** C3, as the claim has it, fails: the vector of the task started for verb
    check with [--lib] does not begin with the JSON flags. *)
Lemma check_lib_vector_not_flags_first :
  exists t, tasks (invokeCargo "check" ["--lib"] Demo.start) !! 0%nat = Some t
            /\ task_args t <> ["--message-format"; "json"; "check"; "--lib"].
Proof. eexists. split; [reflexivity | discriminate]. Qed.

(** ** Single calls and callbacks *)

Section Handlers.
Context `{Collaborators}.

Lemma publishEach_disabled task dir fileDiagnostics (s : Manager) :
  diagnosticPublishingEnabled s = false ->
  publishEach task dir fileDiagnostics s = s.
Proof.
  intros Hoff. unfold publishEach.
  induction fileDiagnostics as [|fd fds IH]; simpl; [done|].
  by rewrite Hoff.
Qed.

Lemma snoc_neq {A} (l : list A) (x : A) : l ++ [x] <> l.
Proof.
  intros E. apply (f_equal length) in E. rewrite length_app in E.
  simpl in E. lia.
Qed.

(** C7.  With an empty slot and a working directory that cannot be resolved,
    runCargo shows the error's message and returns: the slot stays empty, no
    task is created, the publisher (its set and the calls it received) is as
    before, and so is all the rest of the state. *)
Theorem runCargo_unresolved_cwd (s : Manager) (command : string)
    (args : list string) (force : bool) (message : string) :
  currentTask s = None ->
  cwd (host s) = inl message ->
  messages (runCargo command args force s) = messages s ++ [ErrorMessage message] /\
  currentTask (runCargo command args force s) = None /\
  tasks (runCargo command args force s) = tasks s /\
  nextTask (runCargo command args force s) = nextTask s /\
  diagnosticPublisher (runCargo command args force s) = diagnosticPublisher s /\
  runCargo command args force s
    = set_messages (messages s ++ [ErrorMessage message]) s.
Proof.
  intros Hslot Hcwd. unfold runCargo. rewrite Hslot, Hcwd.
  destruct force; simpl; auto 10.
Qed.

(** C8.  When the execution of a slot task fails, the slot is emptied and
    the status bar hidden whatever the failure; the information message is
    shown exactly when the failure carries an error whose message is ENOENT,
    and otherwise (another error, or no error at all) no message is added. *)
Theorem failure_resets_slot (s : Manager) (task : nat) (t : Task)
    (error : option string) :
  tasks s !! task = Some t ->
  task_owner t = OwnedBySlot ->
  exists s',
    dispatch (Failed task error) s = Some s' /\
    currentTask s' = None /\
    statusBarShown s' = false /\
    (messages s' = messages s ++ [InformationMessage notInstalled]
       <-> error = Some "ENOENT") /\
    (messages s' = messages s <-> error <> Some "ENOENT").
Proof.
  intros Htask Hslot. eexists. split.
  { simpl. rewrite Htask. unfold failed. rewrite Hslot. reflexivity. }
  unfold onUnexpectedlyEnded. destruct error as [message|]; simpl.
  - destruct (String.eqb_spec message "ENOENT") as [->|Hne]; simpl.
    + repeat split; auto; try congruence.
      intros E. by apply snoc_neq in E.
    + repeat split; auto; try congruence.
      intros E. by apply eq_sym, snoc_neq in E.
  - repeat split; auto; try congruence.
    intros E. by apply eq_sym, snoc_neq in E.
Qed.

(** C9.  The probe is a task [check --help] that is started without reading
    or writing the slot; when it exits, the run that follows uses verb check
    and the caller's arguments if the exit code is 0, and verb rustc with
    [--] and [-Zno-trans] appended to them otherwise.  (A probe that fails
    has no exit code, and no run follows it.) *)
Theorem probe_exit_code_decides (s : Manager) (args : list string)
    (exitCode now : Z) (slot : option nat) :
  invokeCargoCheckWithArgs args (set_currentTask slot s)
    = set_currentTask slot (invokeCargoCheckWithArgs args s) /\
  currentTask (invokeCargoCheckWithArgs args s) = currentTask s /\
  tasks (invokeCargoCheckWithArgs args s) !! nextTask s
    = Some {| task_args := ["check"; "--help"]; task_cwd := "/";
              task_owner := OwnedByProbe args; startTime := None |} /\
  dispatch (Exited (nextTask s) exitCode now) (invokeCargoCheckWithArgs args s)
    = Some (runCargo
              (if bool_decide (exitCode = 0) then "check" else "rustc")
              (if bool_decide (exitCode = 0) then args
               else args ++ ["--"; "-Zno-trans"])
              true
              (settle (nextTask s) (invokeCargoCheckWithArgs args s))) /\
  currentTask (settle (nextTask s) (invokeCargoCheckWithArgs args s))
    = currentTask s /\
  (forall error,
     dispatch (Failed (nextTask s) error) (invokeCargoCheckWithArgs args s)
       = Some (settle (nextTask s) (invokeCargoCheckWithArgs args s))).
Proof.
  repeat split.
  - unfold invokeCargoCheckWithArgs, checkCargoCheckAvailability, execute.
    simpl. by rewrite lookup_insert_eq.
  - unfold dispatch.
    replace (tasks (invokeCargoCheckWithArgs args s) !! nextTask s)
      with (Some {| task_args := ["check"; "--help"]; task_cwd := "/";
                    task_owner := OwnedByProbe args; startTime := None |})
      by (simpl; by rewrite lookup_insert_eq).
    unfold exited, onAvailabilityKnown, Args.checkInvocation,
      Args.isAvailableFromExitCode. simpl task_owner.
    case_bool_decide as Hcode.
    + subst exitCode. reflexivity.
    + destruct (Z.eqb_spec exitCode 0); [contradiction | reflexivity].
  - intros error. unfold dispatch.
    replace (tasks (invokeCargoCheckWithArgs args s) !! nextTask s)
      with (Some {| task_args := ["check"; "--help"]; task_cwd := "/";
                    task_owner := OwnedByProbe args; startTime := None |})
      by (simpl; by rewrite lookup_insert_eq).
    reflexivity.
Qed.

(** C10.  After setDiagnosticPublishingEnabled(false), a stdout line of a
    slot task that begins with an opening brace is handed to the parser and
    changes nothing else: the published set and the channel are as before.
    Whatever the toggle, a stdout line that does not begin with a brace, and
    every stderr line, is appended to the channel with its newline. *)
Theorem disabled_publishing_drops_json_lines (s : Manager) (task : nat)
    (t : Task) (line : string) :
  tasks s !! task = Some t ->
  task_owner t = OwnedBySlot ->
  (String.prefix "{" line = true ->
   dispatch (LineReceivedInStdout task line)
     (setDiagnosticPublishingEnabled false s)
   = Some (set_parserInput (line :: parserInput s)
             (setDiagnosticPublishingEnabled false s))) /\
  (forall enabled, String.prefix "{" line = false ->
   dispatch (LineReceivedInStdout task line)
     (setDiagnosticPublishingEnabled enabled s)
   = Some (channelAppend (Text (line ++ newline))
             (setDiagnosticPublishingEnabled enabled s))) /\
  (forall enabled,
   dispatch (LineReceivedInStderr task line)
     (setDiagnosticPublishingEnabled enabled s)
   = Some (channelAppend (Text (line ++ newline))
             (setDiagnosticPublishingEnabled enabled s))).
Proof.
  intros Htask Hslot. repeat split.
  - intros Hjson. simpl. rewrite Htask.
    unfold lineReceivedInStdout, onLineReceivedInStdout.
    rewrite Hslot, Hjson. by rewrite publishEach_disabled.
  - intros enabled Hplain. simpl. rewrite Htask.
    unfold lineReceivedInStdout, onLineReceivedInStdout.
    by rewrite Hslot, Hplain.
  - intros enabled. simpl. rewrite Htask.
    unfold lineReceivedInStderr. by rewrite Hslot.
Qed.

End Handlers.

(** ** What every reachable state satisfies *)

Section Invariant.
Context `{Collaborators}.

Lemma invariant_init h : invariant (init h).
Proof. split; simpl; try done. Qed.

(** The invariant only looks at the slot, the pending tasks, the identity
    counter and the publisher. *)
Lemma invariant_ext (s s' : Manager) :
  currentTask s' = currentTask s ->
  tasks s' = tasks s ->
  nextTask s' = nextTask s ->
  diagnosticPublisher s' = diagnosticPublisher s ->
  invariant s -> invariant s'.
Proof.
  intros E1 E2 E3 E4 [I1 I2 I3 I4 I5 I6 I7].
  split; rewrite ?E1, ?E2, ?E3, ?E4; assumption.
Qed.

Lemma invariant_execute (s : Manager) (t : Task) :
  isSlotTask t = false -> invariant s -> invariant (execute t s).
Proof.
  intros Hkind [I1 I2 I3 I4 I5 I6 I7]. unfold execute. split; simpl; try done.
  - intros task t' Hlook. destruct (decide (nextTask s = task)) as [<-|Hne].
    + lia.
    + rewrite lookup_insert_ne in Hlook by done. apply I1 in Hlook. lia.
  - intros task t' Hlook Hslot. destruct (decide (nextTask s = task)) as [<-|Hne].
    + rewrite lookup_insert_eq in Hlook. congruence.
    + rewrite lookup_insert_ne in Hlook by done. eauto.
  - intros task Hcur. destruct (I3 task Hcur) as (t' & Hlook & Hslot).
    exists t'. split; [|done]. rewrite lookup_insert_ne; [done|].
    apply I1 in Hlook. lia.
  - eapply Forall_impl; [exact I7|]. simpl. intros call Hcall. lia.
Qed.

Lemma invariant_runCargoWithCwd (s : Manager) command args dir :
  currentTask s = None -> invariant s ->
  invariant (runCargoWithCwd command args dir s).
Proof.
  intros Hidle [I1 I2 I3 I4 I5 I6 I7]. unfold runCargoWithCwd, execute. simpl.
  destruct (shouldShowRunningCargoTaskOutputChannel (host s)); split; simpl;
    try done.
  all: try (intros task [= <-]; eexists; by rewrite lookup_insert_eq).
  all: try (constructor; [simpl; lia|];
            eapply Forall_impl; [exact I7|]; simpl; intros call Hcall; lia).
  all: intros task t Hlook; destruct (decide (nextTask s = task)) as [<-|Hne];
    try (rewrite lookup_insert_ne in Hlook by done); try done.
  all: try (apply I1 in Hlook; lia); try lia.
  all: intros Hslot; specialize (I2 _ _ Hlook Hslot); congruence.
Qed.

Lemma invariant_runCargo (s : Manager) command args force :
  invariant s -> invariant (runCargo command args force s).
Proof.
  intros Hinv. unfold runCargo.
  destruct force, (currentTask s) as [task|] eqn:Hcur; try done.
  - by apply (invariant_ext s).
  - destruct (cwd (host s)).
    + by apply (invariant_ext s).
    + by apply invariant_runCargoWithCwd.
  - destruct (cwd (host s)).
    + by apply (invariant_ext s).
    + by apply invariant_runCargoWithCwd.
Qed.

Lemma invariant_settle_other (s : Manager) task t :
  tasks s !! task = Some t -> isSlotTask t = false ->
  invariant s -> invariant (settle task s).
Proof.
  intros Hlook Hkind [I1 I2 I3 I4 I5 I6 I7]. unfold settle. split; simpl; try done.
  - intros task' t' Hlook'. apply lookup_delete_Some in Hlook' as [_ Hlook'].
    eauto.
  - intros task' t' Hlook'. apply lookup_delete_Some in Hlook' as [_ Hlook'].
    eauto.
  - intros task' Hcur. destruct (I3 task' Hcur) as (t' & Hlook' & Hslot).
    exists t'. split; [|done]. rewrite lookup_delete_ne; [done|].
    intros ->. congruence.
Qed.

(** A slot task has ended: it leaves the pending tasks and the slot. *)
Lemma invariant_settle_slot (s s' : Manager) task t :
  tasks s !! task = Some t -> isSlotTask t = true ->
  currentTask s' = None ->
  tasks s' = delete task (tasks s) ->
  nextTask s' = nextTask s ->
  diagnosticPublisher s' = diagnosticPublisher s ->
  invariant s -> invariant s'.
Proof.
  intros Hlook Hkind E1 E2 E3 E4 [I1 I2 I3 I4 I5 I6 I7].
  split; rewrite ?E1, ?E2, ?E3, ?E4; try done.
  - intros task' t' Hlook'. apply lookup_delete_Some in Hlook' as [_ Hlook'].
    eauto.
  - intros task' t' Hlook' Hslot.
    apply lookup_delete_Some in Hlook' as [Hne Hlook'].
    pose proof (I2 _ _ Hlook Hkind). pose proof (I2 _ _ Hlook' Hslot).
    congruence.
Qed.

Lemma invariant_publishEach (s : Manager) task dir fileDiagnostics :
  currentTask s = Some task ->
  invariant s -> invariant (publishEach task dir fileDiagnostics s).
Proof.
  unfold publishEach. revert s.
  induction fileDiagnostics as [|fd fds IH]; intros s Hcur Hinv; simpl; [done|].
  destruct (diagnosticPublishingEnabled s); [|by apply IH].
  apply IH; [done|]. destruct Hinv as [I1 I2 I3 I4 I5 I6 I7].
  split; simpl; auto.
  - by rewrite I4.
  - constructor; [|done]. simpl.
    destruct (I3 task Hcur) as (t & Hlook & _). eauto.
Qed.

Lemma currentTask_publishEach (s : Manager) task dir fileDiagnostics :
  currentTask (publishEach task dir fileDiagnostics s) = currentTask s.
Proof.
  unfold publishEach. revert s.
  induction fileDiagnostics as [|fd fds IH]; intros s; simpl; [done|].
  rewrite IH. by destruct (diagnosticPublishingEnabled s).
Qed.

Lemma invariant_dispatch (e : Event) (s s' : Manager) :
  dispatch e s = Some s' -> invariant s -> invariant s'.
Proof.
  intros Hstep Hinv. destruct e; simpl in Hstep.
  - injection Hstep as <-. by apply invariant_runCargo.
  - injection Hstep as <-. by apply invariant_runCargo.
  - injection Hstep as <-. by apply invariant_execute.
  - injection Hstep as <-. unfold invokeCargoNew.
    apply invariant_execute; [done|].
    destruct (showOutput _); by apply (invariant_ext s).
  - injection Hstep as <-. unfold invokeCargoInit.
    apply invariant_execute; [done|].
    destruct (showOutput _); by apply (invariant_ext s).
  - injection Hstep as <-. unfold stopTask.
    destruct (currentTask s); [by apply (invariant_ext s) | done].
  - injection Hstep as <-. by apply (invariant_ext s).
  - injection Hstep as <-. by apply (invariant_ext s).
  - unfold resume in Hstep. destruct (suspended s !! n); [|done].
    injection Hstep as <-. apply invariant_runCargo. by apply (invariant_ext s).
  - destruct (tasks s !! task) as [t|] eqn:Hlook; [|done].
    injection Hstep as <-. unfold started.
    destruct (task_owner t) eqn:Howner; try done.
    destruct Hinv as [I1 I2 I3 I4 I5 I6 I7]. unfold onStarted.
    split; simpl; try done.
    + intros task' t' Hlook'. destruct (decide (task = task')) as [<-|Hne].
      * eauto.
      * rewrite lookup_insert_ne in Hlook' by done. eauto.
    + intros task' t' Hlook' Hslot. destruct (decide (task = task')) as [<-|Hne].
      * apply (I2 task t); [done|]. unfold isSlotTask. by rewrite Howner.
      * rewrite lookup_insert_ne in Hlook' by done. eauto.
    + intros task' Hcur. destruct (I3 task' Hcur) as (t' & Hlook' & Hslot).
      destruct (decide (task = task')) as [<-|Hne].
      * eexists. rewrite lookup_insert_eq. split; [done|].
        unfold isSlotTask. simpl. by rewrite Howner.
      * exists t'. by rewrite lookup_insert_ne.
  - destruct (tasks s !! task) as [t|] eqn:Hlook; [|done].
    injection Hstep as <-. unfold lineReceivedInStdout.
    destruct (task_owner t) eqn:Howner; try done.
    + unfold onLineReceivedInStdout. destruct (String.prefix "{" line).
      * assert (Hcur : currentTask s = Some task).
        { apply (inv_slot_only s Hinv task t); [done|].
          unfold isSlotTask. by rewrite Howner. }
        apply invariant_publishEach; [done|]. by apply (invariant_ext s).
      * by apply (invariant_ext s).
    + by apply (invariant_ext s).
  - destruct (tasks s !! task) as [t|] eqn:Hlook; [|done].
    injection Hstep as <-. unfold lineReceivedInStderr.
    destruct (task_owner t); try done; by apply (invariant_ext s).
  - destruct (tasks s !! task) as [t|] eqn:Hlook; [|done].
    injection Hstep as <-. unfold exited.
    destruct (task_owner t) eqn:Howner.
    + apply (invariant_settle_slot s _ task t); try done.
      unfold isSlotTask. by rewrite Howner.
    + unfold onAvailabilityKnown.
      destruct (Args.checkInvocation _ _) as [command args'].
      apply invariant_runCargo. apply (invariant_settle_other s task t); try done.
      unfold isSlotTask. by rewrite Howner.
    + apply (invariant_settle_other s task t); try done.
      unfold isSlotTask. by rewrite Howner.
  - destruct (tasks s !! task) as [t|] eqn:Hlook; [|done].
    injection Hstep as <-. unfold failed.
    destruct (task_owner t) eqn:Howner.
    + apply (invariant_settle_slot s _ task t); try done.
      * unfold isSlotTask. by rewrite Howner.
      * unfold onUnexpectedlyEnded. destruct error as [message|]; [|done].
        by destruct (negb _).
      * unfold onUnexpectedlyEnded. destruct error as [message|]; [|done].
        by destruct (negb _).
      * unfold onUnexpectedlyEnded. destruct error as [message|]; [|done].
        by destruct (negb _).
      * unfold onUnexpectedlyEnded. destruct error as [message|]; [|done].
        by destruct (negb _).
    + apply (invariant_settle_other s task t); try done.
      unfold isSlotTask. by rewrite Howner.
    + apply (invariant_settle_other s task t); try done.
      unfold isSlotTask. by rewrite Howner.
Qed.

Lemma invariant_run (events : list Event) (s s' : Manager) :
  run events s = Some s' -> invariant s -> invariant s'.
Proof.
  revert s. induction events as [|e events IH]; intros s Hrun Hinv; simpl in Hrun.
  - by injection Hrun as <-.
  - destruct (dispatch e s) as [s1|] eqn:Hstep; [|done].
    apply (IH s1); [done|]. by apply (invariant_dispatch e s).
Qed.

Lemma reachable_invariant (h : Host) (s : Manager) :
  reachable h s -> invariant s.
Proof.
  intros [events Hrun]. apply (invariant_run events (init h)); [done|].
  apply invariant_init.
Qed.

End Invariant.

(** ** Histories *)

Section Histories.
Context `{Collaborators}.

Lemma lastCleared_elem (calls : list PublisherCall) task :
  lastCleared calls = Some task -> Cleared task ∈ calls.
Proof.
  induction calls as [|[task'|task' fd dir] calls IH]; simpl; [done| |].
  - intros [= ->]. apply list_elem_of_here.
  - intros Hlast. apply list_elem_of_further. by apply IH.
Qed.

Lemma eachInItsRun_suffix (newer older : list PublisherCall) :
  eachInItsRun (newer ++ older) -> eachInItsRun older.
Proof.
  induction newer as [|[task|task fd dir] newer IH]; simpl; [done| |];
    intros [_ Hruns]; by apply IH.
Qed.

Lemma lastCleared_app (newer older : list PublisherCall) task :
  (forall call, call ∈ newer -> ~ isCleared call) ->
  lastCleared (newer ++ Cleared task :: older) = Some task.
Proof.
  induction newer as [|[task'|task' fd dir] newer IH]; simpl; intros Hnone.
  - done.
  - destruct (Hnone (Cleared task')); [apply list_elem_of_here | exact I].
  - apply IH. intros call Hin. apply Hnone. by apply list_elem_of_further.
Qed.

Lemma replay_app (newer older : list PublisherCall) task :
  (forall call, call ∈ newer -> ~ isCleared call) ->
  replay (newer ++ Cleared task :: older) = replay newer.
Proof.
  induction newer as [|[task'|task' fd dir] newer IH]; simpl; intros Hnone.
  - done.
  - done.
  - rewrite IH; [done|].
    intros call Hin. apply Hnone. by apply list_elem_of_further.
Qed.

(** Since the latest clear, every call is a publish for the cleared task. *)
Lemma eachInItsRun_since_clear (newer older : list PublisherCall) task :
  eachInItsRun (newer ++ Cleared task :: older) ->
  (forall call, call ∈ newer -> ~ isCleared call) ->
  Forall (publishedFor task) newer.
Proof.
  induction newer as [|[task'|task' fd dir] newer IH]; simpl;
    intros Hruns Hnone.
  - constructor.
  - destruct (Hnone (Cleared task')); [apply list_elem_of_here | exact I].
  - destruct Hruns as [Hlast Hruns].
    assert (Hnone' : forall call, call ∈ newer -> ~ isCleared call).
    { intros call Hin. apply Hnone. by apply list_elem_of_further. }
    constructor; [|by apply IH].
    rewrite lastCleared_app in Hlast by done. simpl. congruence.
Qed.

Lemma eachInItsRun_older (newer older : list PublisherCall) task :
  eachInItsRun (newer ++ Cleared task :: older) ->
  Forall (fun call => (callTask call < task)%nat) older.
Proof. intros Hruns. apply eachInItsRun_suffix in Hruns. by destruct Hruns. Qed.

Lemma eachInItsRun_cleared_before (newer older : list PublisherCall)
    task fileDiagnostic baseDir :
  eachInItsRun (newer ++ Published task fileDiagnostic baseDir :: older) ->
  Cleared task ∈ older.
Proof.
  intros Hruns. apply eachInItsRun_suffix in Hruns. destruct Hruns as [Hlast _].
  by apply lastCleared_elem.
Qed.

End Histories.

(** ** Runs of the manager *)

Section Runs.
Context `{Collaborators}.

Lemma runningSlotTasks_idle (s : Manager) :
  invariant s -> currentTask s = None -> runningSlotTasks s = ∅.
Proof.
  intros Hinv Hidle. apply map_empty. intros task.
  apply map_lookup_filter_None. right. intros t Hlook Hslot. simpl in Hslot.
  pose proof (inv_slot_only s Hinv task t Hlook Hslot). congruence.
Qed.

Lemma runningSlotTasks_busy (s : Manager) task :
  invariant s -> currentTask s = Some task ->
  exists t, tasks s !! task = Some t /\ runningSlotTasks s = {[task := t]}.
Proof.
  intros Hinv Hcur.
  destruct (inv_slot_pending s Hinv task Hcur) as (t & Hlook & Hslot).
  exists t. split; [done|]. apply map_eq. intros task'.
  destruct (decide (task = task')) as [<-|Hne].
  - rewrite lookup_singleton_eq. by apply map_lookup_filter_Some.
  - rewrite lookup_singleton_ne by done.
    apply map_lookup_filter_None. right. intros t' Hlook' Hslot'.
    simpl in Hslot'.
    pose proof (inv_slot_only s Hinv task' t' Hlook' Hslot'). congruence.
Qed.

Lemma lastCleared_split (calls : list PublisherCall) task :
  lastCleared calls = Some task ->
  exists newer older,
    calls = newer ++ Cleared task :: older /\
    (forall call, call ∈ newer -> ~ isCleared call).
Proof.
  induction calls as [|[task'|task' fd dir] calls IH]; simpl; [done| |].
  - intros [= ->]. exists [], calls. split; [done|].
    intros call Hin. by apply elem_of_nil in Hin.
  - intros Hlast. destruct (IH Hlast) as (newer & older & -> & Hnone).
    exists (Published task' fd dir :: newer), older. split; [done|].
    intros call Hin. apply elem_of_cons in Hin as [->|Hin]; [simpl; tauto | auto].
Qed.

(** C2.  A runCargo call with force = false made while the slot is occupied
    changes nothing, and so does any sequence of such calls: no task is
    created, the slot and its task are as before.  The slot of a reachable
    state refers to a pending task, and no other task started through the
    slot is pending. *)
Theorem unforced_run_is_dropped (h : Host) (s : Manager) (task : nat)
    (calls : list (string * list string)) :
  reachable h s ->
  currentTask s = Some task ->
  (forall command args, runCargo command args false s = s) /\
  fold_left (fun s call => runCargo call.1 call.2 false s) calls s = s /\
  (exists t, tasks s !! task = Some t /\ isSlotTask t = true) /\
  (forall task' t', tasks s !! task' = Some t' -> isSlotTask t' = true ->
                    task' = task).
Proof.
  intros Hreach Hcur. apply reachable_invariant in Hreach.
  assert (Hdrop : forall command args, runCargo command args false s = s).
  { intros command args. unfold runCargo. by rewrite Hcur. }
  split; [done|]. split; [|split].
  - induction calls as [|call calls IH]; cbn [fold_left]; [done|].
    by rewrite Hdrop.
  - by apply (inv_slot_pending s Hreach).
  - intros task' t' Hlook Hslot.
    pose proof (inv_slot_only s Hreach task' t' Hlook Hslot). congruence.
Qed.

(** C5, as the code has it.  In every reachable state at most one of the
    tasks started through the slot is running: exactly the task of the slot
    when the slot is occupied, none when it is empty.  (The probe and the
    tasks of init and new are started beside the slot.) *)
Theorem at_most_one_slot_task_running (h : Host) (s : Manager) :
  reachable h s ->
  (size (runningSlotTasks s) <= 1)%nat /\
  (forall task, currentTask s = Some task ->
     exists t, tasks s !! task = Some t /\ runningSlotTasks s = {[task := t]}) /\
  (currentTask s = None -> runningSlotTasks s = ∅).
Proof.
  intros Hreach. apply reachable_invariant in Hreach.
  split; [|split].
  - destruct (currentTask s) as [task|] eqn:Hcur.
    + destruct (runningSlotTasks_busy s task Hreach Hcur) as (t & _ & ->).
      rewrite map_size_singleton. lia.
    + rewrite (runningSlotTasks_idle s Hreach Hcur), map_size_empty. lia.
  - intros task Hcur. by apply runningSlotTasks_busy.
  - by apply runningSlotTasks_idle.
Qed.

(** C4.  runCargoWithCwd clears the published set before it creates the task
    of the run.  In every reachable state, every publish call made for a
    task comes after the clear call made for that task; and as long as the
    latest run has not published a diagnostic, the published set is empty. *)
Theorem clear_before_first_publish (h : Host) (s : Manager) :
  reachable h s ->
  (forall command args dir,
     history (diagnosticPublisher (runCargoWithCwd command args dir s))
       = Cleared (nextTask s) :: history (diagnosticPublisher s) /\
     published (diagnosticPublisher (runCargoWithCwd command args dir s)) = ∅ /\
     currentTask (runCargoWithCwd command args dir s) = Some (nextTask s)) /\
  (forall newer task fileDiagnostic baseDir older,
     history (diagnosticPublisher s)
       = newer ++ Published task fileDiagnostic baseDir :: older ->
     Cleared task ∈ older) /\
  (forall newer task older,
     history (diagnosticPublisher s) = newer ++ Cleared task :: older ->
     (forall call, call ∈ newer -> ~ isCleared call) ->
     (forall fileDiagnostic baseDir,
        Published task fileDiagnostic baseDir ∉ newer) ->
     published (diagnosticPublisher s) = ∅) /\
  (forall task,
     currentTask s = Some task ->
     (forall fileDiagnostic baseDir,
        Published task fileDiagnostic baseDir ∉ history (diagnosticPublisher s)) ->
     published (diagnosticPublisher s) = ∅).
Proof.
  intros Hreach. apply reachable_invariant in Hreach.
  assert (Hempty : forall newer task older,
     history (diagnosticPublisher s) = newer ++ Cleared task :: older ->
     (forall call, call ∈ newer -> ~ isCleared call) ->
     (forall fileDiagnostic baseDir,
        Published task fileDiagnostic baseDir ∉ newer) ->
     published (diagnosticPublisher s) = ∅).
  { intros newer task older Hsplit Hnone Hfirst.
    pose proof (inv_runs s Hreach) as Hruns. rewrite Hsplit in Hruns.
    pose proof (eachInItsRun_since_clear _ _ _ Hruns Hnone) as Hfor.
    rewrite (inv_replay s Hreach), Hsplit.
    destruct newer as [|[task'|task' fd dir] newer]; [done| |].
    - apply Forall_cons in Hfor as [[] _].
    - apply Forall_cons in Hfor as [Hfor _]. simpl in Hfor. subst task'.
      destruct (Hfirst fd dir). apply list_elem_of_here. }
  split; [|split; [|split]].
  - intros command args dir. unfold runCargoWithCwd, execute. simpl.
    by destruct (shouldShowRunningCargoTaskOutputChannel (host s)).
  - intros newer task fd dir older Hsplit.
    pose proof (inv_runs s Hreach) as Hruns. rewrite Hsplit in Hruns.
    by apply eachInItsRun_cleared_before in Hruns.
  - exact Hempty.
  - intros task Hcur Hfirst.
    pose proof (inv_current_run s Hreach task Hcur) as Hlast.
    destruct (lastCleared_split _ _ Hlast) as (newer & older & Hsplit & Hnone).
    apply (Hempty newer task older); [done | done |].
    intros fd dir Hin. apply (Hfirst fd dir). rewrite Hsplit.
    apply elem_of_app. by left.
Qed.

(** C1, as the code has it.  A forced runCargo on an occupied slot requests
    the kill of the slot's task and suspends; when the kill has settled the
    same run is issued again.  A run puts a new task into the slot only when
    the slot is empty and no task started through it is pending, and it
    starts with a clear.  Hence in every reachable state all calls since the
    latest clear are publish calls for the task of that clear, every earlier
    call belongs to an older task, and the published set is what those
    publish calls alone built.  (Lines that the killed task delivers before
    it ends are handled like any other line.) *)
Theorem forced_restart_keeps_runs_apart (h : Host) (s : Manager) :
  reachable h s ->
  (forall a command args,
     currentTask s = Some a ->
     runCargo command args true s
       = set_suspended
           (suspended s ++ [{| susp_command := command; susp_args := args;
                               susp_force := true |}])
           (kill a s)) /\
  (forall n call,
     suspended s !! n = Some call ->
     dispatch (KillSettled n) s
       = Some (runCargo (susp_command call) (susp_args call) (susp_force call)
                 (set_suspended (delete n (suspended s)) s))) /\
  (forall command args force b,
     currentTask (runCargo command args force s) = Some b ->
     currentTask s <> Some b ->
     currentTask s = None /\ runningSlotTasks s = ∅ /\ b = nextTask s /\
     history (diagnosticPublisher (runCargo command args force s))
       = Cleared b :: history (diagnosticPublisher s) /\
     published (diagnosticPublisher (runCargo command args force s)) = ∅) /\
  (forall newer b older,
     history (diagnosticPublisher s) = newer ++ Cleared b :: older ->
     (forall call, call ∈ newer -> ~ isCleared call) ->
     Forall (publishedFor b) newer /\
     Forall (fun call => (callTask call < b)%nat) older /\
     published (diagnosticPublisher s) = replay newer).
Proof.
  intros Hreach. apply reachable_invariant in Hreach.
  split; [|split; [|split]].
  - intros a command args Hcur. unfold runCargo. by rewrite Hcur.
  - intros n call Hcall. simpl. unfold resume. by rewrite Hcall.
  - intros command args force b Hnew Hold. unfold runCargo in *.
    destruct (currentTask s) as [a|] eqn:Hcur.
    { destruct force; simpl in Hnew; congruence. }
    assert (Hstart : forall dir,
      currentTask (runCargoWithCwd command args dir s) = Some (nextTask s) /\
      history (diagnosticPublisher (runCargoWithCwd command args dir s))
        = Cleared (nextTask s) :: history (diagnosticPublisher s) /\
      published (diagnosticPublisher (runCargoWithCwd command args dir s)) = ∅).
    { intros dir. unfold runCargoWithCwd, execute. simpl.
      by destruct (shouldShowRunningCargoTaskOutputChannel (host s)). }
    assert (Hnew' :
      currentTask
        match cwd (host s) with
        | inl message => set_messages (messages s ++ [ErrorMessage message]) s
        | inr dir => runCargoWithCwd command args dir s
        end = Some b) by (by destruct force).
    assert (Hsame :
      match force, @None nat with
      | true, Some task =>
          set_suspended
            (suspended s ++ [{| susp_command := command; susp_args := args;
                                susp_force := force |}]) (kill task s)
      | _, Some _ => s
      | _, None =>
          match cwd (host s) with
          | inl message => set_messages (messages s ++ [ErrorMessage message]) s
          | inr dir => runCargoWithCwd command args dir s
          end
      end
      = match cwd (host s) with
        | inl message => set_messages (messages s ++ [ErrorMessage message]) s
        | inr dir => runCargoWithCwd command args dir s
        end) by (by destruct force).
    rewrite Hsame. clear Hsame Hnew.
    destruct (cwd (host s)) as [message|dir]; [simpl in Hnew'; congruence|].
    destruct (Hstart dir) as (E1 & E2 & E3).
    assert (b = nextTask s) as -> by congruence.
    split; [done|]. split; [by apply runningSlotTasks_idle|]. done.
  - intros newer b older Hsplit Hnone.
    pose proof (inv_runs s Hreach) as Hruns. rewrite Hsplit in Hruns.
    split; [by apply (eachInItsRun_since_clear _ older)|].
    split; [by apply (eachInItsRun_older newer)|].
    rewrite (inv_replay s Hreach), Hsplit. by apply replay_app.
Qed.

End Runs.

(** ** The theorems at concrete states *)

Lemma reachable_afterBuild : reachable Demo.host Demo.afterBuild.
Proof. exists [InvokeCargo "build" []]. vm_compute. reflexivity. Defined.

Lemma reachable_afterRestart : reachable Demo.host Demo.afterRestart.
Proof. exists Demo.restartTrace. vm_compute. reflexivity. Defined.

Lemma runCargo_unresolved_cwd_witness :
  runCargo "build" [] true Demo.startWithoutWorkspace
  = set_messages
      (messages Demo.startWithoutWorkspace
       ++ [ErrorMessage "Current document not in the workspace"])
      Demo.startWithoutWorkspace.
Proof.
  apply (runCargo_unresolved_cwd Demo.startWithoutWorkspace "build" [] true
           "Current document not in the workspace").
  - vm_compute. reflexivity.
  - vm_compute. reflexivity.
Defined.

Lemma failure_resets_slot_witness :
  exists s',
    dispatch (Failed 0 (Some "ENOENT")) Demo.afterBuild = Some s' /\
    currentTask s' = None /\
    statusBarShown s' = false /\
    messages s' = messages Demo.afterBuild ++ [InformationMessage notInstalled].
Proof.
  assert (Htask : tasks Demo.afterBuild !! 0%nat
                  = Some {| task_args := ["build"; "--message-format"; "json"];
                            task_cwd := "/work"; task_owner := OwnedBySlot;
                            startTime := None |})
    by (vm_compute; reflexivity).
  destruct (failure_resets_slot Demo.afterBuild 0 _ (Some "ENOENT")
              Htask eq_refl)
    as (s' & Hstep & Hslot & Hbar & Hshown & _).
  exists s'. split; [exact Hstep|]. split; [exact Hslot|].
  split; [exact Hbar|]. apply Hshown. reflexivity.
Defined.

Lemma disabled_publishing_drops_json_lines_witness :
  dispatch (LineReceivedInStdout 0 "{src/lib.rs")
    (setDiagnosticPublishingEnabled false Demo.afterBuild)
  = Some (set_parserInput ("{src/lib.rs" :: parserInput Demo.afterBuild)
            (setDiagnosticPublishingEnabled false Demo.afterBuild)).
Proof.
  assert (Htask : tasks Demo.afterBuild !! 0%nat
                  = Some {| task_args := ["build"; "--message-format"; "json"];
                            task_cwd := "/work"; task_owner := OwnedBySlot;
                            startTime := None |})
    by (vm_compute; reflexivity).
  apply (disabled_publishing_drops_json_lines Demo.afterBuild 0 _
           "{src/lib.rs" Htask eq_refl).
  vm_compute. reflexivity.
Defined.

Lemma unforced_run_is_dropped_witness :
  fold_left (fun s call => runCargo call.1 call.2 false s)
    [("test", []); ("doc", ["--open"])] Demo.afterBuild
  = Demo.afterBuild.
Proof.
  assert (Hcur : currentTask Demo.afterBuild = Some 0%nat)
    by (vm_compute; reflexivity).
  apply (unforced_run_is_dropped Demo.host Demo.afterBuild 0
           [("test", []); ("doc", ["--open"])]
           reachable_afterBuild Hcur).
Defined.

Lemma at_most_one_slot_task_running_witness :
  (size (runningSlotTasks Demo.afterRestart) <= 1)%nat.
Proof.
  apply (at_most_one_slot_task_running Demo.host Demo.afterRestart
           reachable_afterRestart).
Defined.

Lemma clear_before_first_publish_witness :
  published (diagnosticPublisher Demo.afterBuild) = ∅.
Proof.
  assert (Hcur : currentTask Demo.afterBuild = Some 0%nat)
    by (vm_compute; reflexivity).
  assert (Hhist : history (diagnosticPublisher Demo.afterBuild) = [Cleared 0])
    by (vm_compute; reflexivity).
  destruct (clear_before_first_publish Demo.host Demo.afterBuild
              reachable_afterBuild) as (_ & _ & _ & Hempty).
  apply (Hempty 0%nat Hcur).
  intros fileDiagnostic baseDir Hin. rewrite Hhist in Hin.
  apply elem_of_cons in Hin as [Hin|Hin]; [discriminate|].
  by apply elem_of_nil in Hin.
Defined.

Lemma forced_restart_keeps_runs_apart_witness :
  Forall (publishedFor 1) [Demo.publishCall 1 "src/b.rs"] /\
  Forall (fun call => (callTask call < 1)%nat)
    [Demo.publishCall 0 "src/a.rs"; Cleared 0] /\
  published (diagnosticPublisher Demo.afterRestart)
  = replay [Demo.publishCall 1 "src/b.rs"].
Proof.
  assert (Hhist : history (diagnosticPublisher Demo.afterRestart)
                  = [Demo.publishCall 1 "src/b.rs"] ++
                    Cleared 1 :: [Demo.publishCall 0 "src/a.rs"; Cleared 0])
    by (vm_compute; reflexivity).
  destruct (forced_restart_keeps_runs_apart Demo.host Demo.afterRestart
              reachable_afterRestart) as (_ & _ & _ & Hapart).
  apply (Hapart _ 1%nat _ Hhist).
  intros call Hin. apply elem_of_cons in Hin as [->|Hin]; [simpl; tauto|].
  by apply elem_of_nil in Hin.
Defined.

(** ** Where the specification and the code part *)

(** C1, as the claim has it, fails.  A build runs; a test run is requested,
    so the kill of the build is requested and the call waits; a line the
    build prints now is handed to the parser and its diagnostic published. *)
Lemma line_after_kill_reaches_parser :
  exists s s',
    run [InvokeCargo "build" []; InvokeCargo "test" []] Demo.start = Some s /\
    currentTask s = Some 0%nat /\
    killRequested s = [0%nat] /\
    suspended s = [{| susp_command := "test"; susp_args := [];
                      susp_force := true |}] /\
    parserInput s = [] /\
    dispatch (LineReceivedInStdout 0 "{src/a.rs") s = Some s' /\
    parserInput s' = ["{src/a.rs"] /\
    published (diagnosticPublisher s') !! "/work/src/a.rs" = Some ["src/a.rs"].
Proof.
  eexists. eexists. split; [vm_compute; reflexivity|].
  repeat split; vm_compute; reflexivity.
Qed.

(** C5, as the claim has it, fails.  A build runs; invokeCargoCheckWithArgs
    starts its probe beside it: two tasks are running. *)
Lemma probe_runs_beside_slot_task :
  exists s,
    run [InvokeCargo "build" []; InvokeCargoCheckWithArgs ["--lib"]]
      Demo.start = Some s /\
    reachable Demo.host s /\
    running s = 2%nat /\
    task_owner <$> tasks s !! 0%nat = Some OwnedBySlot /\
    task_owner <$> tasks s !! 1%nat = Some (OwnedByProbe ["--lib"]) /\
    ~ (running s <= 1)%nat.
Proof.
  eexists. split; [vm_compute; reflexivity|]. split.
  { exists [InvokeCargo "build" []; InvokeCargoCheckWithArgs ["--lib"]].
    vm_compute. reflexivity. }
  split; [vm_compute; reflexivity|]. split; [vm_compute; reflexivity|].
  split; [vm_compute; reflexivity|]. vm_compute. lia.
Qed.

(** * Further properties of the manager *)

(** ** Bookkeeping *)

Section BookkeepingProofs.
Context `{Collaborators}.

Lemma set_diagnosticPublisher_eta (s : Manager) :
  set_diagnosticPublisher
    {| published := published (diagnosticPublisher s);
       history := history (diagnosticPublisher s) |} s = s.
Proof. destruct s as [? ? [? ?] ? ? ? ? ? ? ? ? ?]. reflexivity. Qed.

(** What the loop of lines 376-380 amounts to while publishing is enabled:
    one publish call per diagnostic, in order, nothing else. *)
Lemma publishEach_enabled (s : Manager) task dir fileDiagnostics :
  diagnosticPublishingEnabled s = true ->
  publishEach task dir fileDiagnostics s
  = set_diagnosticPublisher
      {| published :=
           fold_left (fun set fd => publish fd dir set) fileDiagnostics
             (published (diagnosticPublisher s));
         history :=
           reverse ((fun fd => Published task fd dir) <$> fileDiagnostics)
           ++ history (diagnosticPublisher s) |} s.
Proof.
  unfold publishEach. revert s.
  induction fileDiagnostics as [|fd fds IH]; intros s Hon.
  - simpl. by rewrite set_diagnosticPublisher_eta.
  - cbn [fold_left]. rewrite Hon. rewrite IH by done. simpl.
    rewrite reverse_cons, <- app_assoc. reflexivity.
Qed.

Lemma bookkeeping_grow (s s' : Manager) newer :
  statusBarShown s' = statusBarShown s ->
  currentTask s' = currentTask s ->
  parserInput s' = parserInput s ->
  suspended s' = suspended s ->
  killRequested s' = killRequested s ->
  history (diagnosticPublisher s') = newer ++ history (diagnosticPublisher s) ->
  bookkeeping s -> bookkeeping s'.
Proof.
  intros E1 E2 E3 E4 E5 E6 [B1 B2 B3 B4].
  split; rewrite ?E1, ?E2, ?E3, ?E4, ?E5, ?E6; try done.
  eapply Forall_impl; [exact B4|]. intros task Hin.
  apply elem_of_app. by right.
Qed.

Lemma bookkeeping_ext (s s' : Manager) :
  statusBarShown s' = statusBarShown s ->
  currentTask s' = currentTask s ->
  parserInput s' = parserInput s ->
  suspended s' = suspended s ->
  killRequested s' = killRequested s ->
  diagnosticPublisher s' = diagnosticPublisher s ->
  bookkeeping s -> bookkeeping s'.
Proof.
  intros E1 E2 E3 E4 E5 E6. apply (bookkeeping_grow s s' []); try done.
  by rewrite E6.
Qed.

Lemma bookkeeping_init h : bookkeeping (init h).
Proof.
  split; simpl; by constructor.
Qed.

Lemma bookkeeping_runCargoWithCwd (s : Manager) command args dir :
  bookkeeping s -> bookkeeping (runCargoWithCwd command args dir s).
Proof.
  intros [B1 B2 B3 B4]. unfold runCargoWithCwd, execute. simpl.
  destruct (shouldShowRunningCargoTaskOutputChannel (host s)); split; simpl;
    try done.
  all: try (split; [eauto | done]).
  all: eapply Forall_impl; [exact B4|]; intros task Hin;
    by apply list_elem_of_further.
Qed.

Lemma bookkeeping_runCargo (s : Manager) command args force :
  invariant s -> bookkeeping s -> bookkeeping (runCargo command args force s).
Proof.
  intros Hinv Hbk. unfold runCargo.
  destruct force, (currentTask s) as [task|] eqn:Hcur; try done.
  - destruct Hbk as [B1 B2 B3 B4]. split; simpl; try done.
    + apply Forall_app. split; [done|]. by repeat constructor.
    + constructor; [|done]. apply lastCleared_elem.
      by apply (inv_current_run s Hinv).
  - destruct (cwd (host s)).
    + by apply (bookkeeping_ext s).
    + by apply bookkeeping_runCargoWithCwd.
  - destruct (cwd (host s)).
    + by apply (bookkeeping_ext s).
    + by apply bookkeeping_runCargoWithCwd.
Qed.

Lemma bookkeeping_publishEach (s : Manager) task dir fileDiagnostics :
  bookkeeping s -> bookkeeping (publishEach task dir fileDiagnostics s).
Proof.
  intros Hbk. destruct (diagnosticPublishingEnabled s) eqn:Htoggle.
  - rewrite publishEach_enabled by done.
    by eapply (bookkeeping_grow s).
  - by rewrite publishEach_disabled.
Qed.

(** A slot task has ended, one way or the other. *)
Lemma bookkeeping_ended (s s' : Manager) :
  statusBarShown s' = false ->
  currentTask s' = None ->
  parserInput s' = parserInput s ->
  suspended s' = suspended s ->
  killRequested s' = killRequested s ->
  diagnosticPublisher s' = diagnosticPublisher s ->
  bookkeeping s -> bookkeeping s'.
Proof.
  intros E1 E2 E3 E4 E5 E6 [B1 B2 B3 B4].
  split; rewrite ?E1, ?E2, ?E3, ?E4, ?E5, ?E6; done.
Qed.

Lemma onUnexpectedlyEnded_frame (s : Manager) error :
  statusBarShown (onUnexpectedlyEnded error s) = false /\
  currentTask (onUnexpectedlyEnded error s) = None /\
  parserInput (onUnexpectedlyEnded error s) = parserInput s /\
  suspended (onUnexpectedlyEnded error s) = suspended s /\
  killRequested (onUnexpectedlyEnded error s) = killRequested s /\
  diagnosticPublisher (onUnexpectedlyEnded error s) = diagnosticPublisher s /\
  tasks (onUnexpectedlyEnded error s) = tasks s /\
  nextTask (onUnexpectedlyEnded error s) = nextTask s /\
  channel (onUnexpectedlyEnded error s) = channel s /\
  host (onUnexpectedlyEnded error s) = host s /\
  diagnosticPublishingEnabled (onUnexpectedlyEnded error s)
    = diagnosticPublishingEnabled s.
Proof.
  unfold onUnexpectedlyEnded. destruct error as [message|]; [|done].
  by destruct (negb _).
Qed.

Lemma bookkeeping_dispatch (e : Event) (s s' : Manager) :
  dispatch e s = Some s' -> invariant s -> bookkeeping s -> bookkeeping s'.
Proof.
  intros Hstep Hinv Hbk. destruct e; simpl in Hstep.
  - injection Hstep as <-. by apply bookkeeping_runCargo.
  - injection Hstep as <-. by apply bookkeeping_runCargo.
  - injection Hstep as <-. by apply (bookkeeping_ext s).
  - injection Hstep as <-. unfold invokeCargoNew, execute. simpl.
    destruct (showOutput _); by apply (bookkeeping_ext s).
  - injection Hstep as <-. unfold invokeCargoInit, execute. simpl.
    destruct (showOutput _); by apply (bookkeeping_ext s).
  - injection Hstep as <-. unfold stopTask.
    destruct (currentTask s) as [task|] eqn:Hcur; [|done].
    destruct Hbk as [B1 B2 B3 B4]. split; simpl; try done.
    constructor; [|done]. apply lastCleared_elem.
    by apply (inv_current_run s Hinv).
  - injection Hstep as <-. by apply (bookkeeping_ext s).
  - injection Hstep as <-. by apply (bookkeeping_ext s).
  - unfold resume in Hstep. destruct (suspended s !! n) as [call|]; [|done].
    injection Hstep as <-. apply bookkeeping_runCargo.
    + by apply (invariant_ext s).
    + destruct Hbk as [B1 B2 B3 B4]. split; simpl; try done.
      by apply Forall_delete.
  - destruct (tasks s !! task) as [t|] eqn:Hlook; [|done].
    injection Hstep as <-. unfold started.
    destruct (task_owner t); try done. by apply (bookkeeping_ext s).
  - destruct (tasks s !! task) as [t|] eqn:Hlook; [|done].
    injection Hstep as <-. unfold lineReceivedInStdout.
    destruct (task_owner t); try done.
    + unfold onLineReceivedInStdout.
      destruct (String.prefix "{" line) eqn:Hjson.
      * apply bookkeeping_publishEach.
        destruct Hbk as [B1 B2 B3 B4]. split; simpl; try done.
        by constructor.
      * by apply (bookkeeping_ext s).
    + by apply (bookkeeping_ext s).
  - destruct (tasks s !! task) as [t|] eqn:Hlook; [|done].
    injection Hstep as <-. unfold lineReceivedInStderr.
    destruct (task_owner t); try done; by apply (bookkeeping_ext s).
  - destruct (tasks s !! task) as [t|] eqn:Hlook; [|done].
    injection Hstep as <-. unfold exited.
    destruct (task_owner t) eqn:Howner.
    + by apply (bookkeeping_ended s).
    + unfold onAvailabilityKnown.
      destruct (Args.checkInvocation _ _) as [command args'].
      apply bookkeeping_runCargo.
      * apply (invariant_settle_other s task t); try done.
        unfold isSlotTask. by rewrite Howner.
      * by apply (bookkeeping_ext s).
    + by apply (bookkeeping_ext s).
  - destruct (tasks s !! task) as [t|] eqn:Hlook; [|done].
    injection Hstep as <-. unfold failed.
    destruct (task_owner t) eqn:Howner.
    + destruct (onUnexpectedlyEnded_frame (settle task s) error)
        as (E1 & E2 & E3 & E4 & E5 & E6 & _).
      by apply (bookkeeping_ended s).
    + by apply (bookkeeping_ext s).
    + by apply (bookkeeping_ext s).
Qed.

Lemma reachable_bookkeeping (h : Host) (s : Manager) :
  reachable h s -> bookkeeping s.
Proof.
  intros [events Hrun].
  assert (Hboth : invariant s /\ bookkeeping s); [|by destruct Hboth].
  revert Hrun. generalize (invariant_init h) (bookkeeping_init h).
  generalize (init h) as s0. induction events as [|e events IH];
    intros s0 Hinv Hbk Hrun; simpl in Hrun.
  - by injection Hrun as <-.
  - destruct (dispatch e s0) as [s1|] eqn:Hstep; [|done].
    apply (IH s1); [| |done].
    + by apply (invariant_dispatch e s0).
    + by apply (bookkeeping_dispatch e s0).
Qed.

End BookkeepingProofs.

(** ** What holds in every reachable state *)

Section ReachableStates.
Context `{Collaborators}.

Lemma publishEach_frame (s : Manager) task dir fileDiagnostics :
  exists p, publishEach task dir fileDiagnostics s = set_diagnosticPublisher p s.
Proof.
  destruct (diagnosticPublishingEnabled s) eqn:Htoggle.
  - eexists. by apply publishEach_enabled.
  - exists (diagnosticPublisher s). rewrite publishEach_disabled by done.
    by destruct s.
Qed.

Lemma isSlotTask_owner (t : Task) :
  isSlotTask t = true -> task_owner t = OwnedBySlot.
Proof. unfold isSlotTask. by destruct (task_owner t). Qed.

Lemma runCargoWithCwd_fields (s : Manager) command args dir :
  currentTask (runCargoWithCwd command args dir s) = Some (nextTask s) /\
  tasks (runCargoWithCwd command args dir s)
    = <[nextTask s := {| task_args := Args.taskArgs command args;
                         task_cwd := dir; task_owner := OwnedBySlot;
                         startTime := None |}]> (tasks s) /\
  nextTask (runCargoWithCwd command args dir s) = S (nextTask s) /\
  diagnosticPublisher (runCargoWithCwd command args dir s)
    = clearDiagnostics (nextTask s) (diagnosticPublisher s) /\
  killRequested (runCargoWithCwd command args dir s) = killRequested s /\
  suspended (runCargoWithCwd command args dir s) = suspended s /\
  messages (runCargoWithCwd command args dir s) = messages s /\
  statusBarShown (runCargoWithCwd command args dir s) = true /\
  diagnosticPublishingEnabled (runCargoWithCwd command args dir s)
    = diagnosticPublishingEnabled s.
Proof.
  unfold runCargoWithCwd, execute. simpl.
  by destruct (shouldShowRunningCargoTaskOutputChannel (host s)).
Qed.

Lemma runCargo_kills (s : Manager) command args force :
  killRequested (runCargo command args force s) = killRequested s \/
  exists a, currentTask s = Some a /\
            killRequested (runCargo command args force s) = a :: killRequested s.
Proof.
  unfold runCargo. destruct force, (currentTask s) as [a|]; simpl; eauto.
  - destruct (cwd (host s)); [by left|]. left.
    by destruct (runCargoWithCwd_fields s command args s0) as (_ & _ & _ & _ & -> & _).
  - destruct (cwd (host s)); [by left|]. left.
    by destruct (runCargoWithCwd_fields s command args s0) as (_ & _ & _ & _ & -> & _).
Qed.

Lemma dispatch_kills (e : Event) (s s' : Manager) :
  dispatch e s = Some s' ->
  killRequested s' = killRequested s \/
  exists a, currentTask s = Some a /\ killRequested s' = a :: killRequested s.
Proof.
  intros Hstep. destruct e; simpl in Hstep.
  - injection Hstep as <-. apply runCargo_kills.
  - injection Hstep as <-. apply runCargo_kills.
  - injection Hstep as <-. by left.
  - injection Hstep as <-. left. unfold invokeCargoNew, execute. simpl.
    by destruct (showOutput _).
  - injection Hstep as <-. left. unfold invokeCargoInit, execute. simpl.
    by destruct (showOutput _).
  - injection Hstep as <-. unfold stopTask.
    destruct (currentTask s) as [a|]; [right; by exists a | by left].
  - injection Hstep as <-. by left.
  - injection Hstep as <-. by left.
  - unfold resume in Hstep. destruct (suspended s !! n) as [call|]; [|done].
    injection Hstep as <-.
    apply (runCargo_kills (set_suspended (delete n (suspended s)) s)).
  - destruct (tasks s !! task) as [t|]; [|done]. injection Hstep as <-.
    left. unfold started. by destruct (task_owner t).
  - destruct (tasks s !! task) as [t|]; [|done]. injection Hstep as <-.
    left. unfold lineReceivedInStdout. destruct (task_owner t); try done.
    unfold onLineReceivedInStdout. destruct (String.prefix "{" line); [|done].
    by destruct (publishEach_frame (set_parserInput (line :: parserInput s) s)
                   task (task_cwd t) (parseLine line)) as [p ->].
  - destruct (tasks s !! task) as [t|]; [|done]. injection Hstep as <-.
    left. unfold lineReceivedInStderr. by destruct (task_owner t).
  - destruct (tasks s !! task) as [t|]; [|done]. injection Hstep as <-.
    unfold exited. destruct (task_owner t); [by left| |by left].
    unfold onAvailabilityKnown.
    destruct (Args.checkInvocation _ _) as [command args'].
    apply (runCargo_kills (settle task s)).
  - destruct (tasks s !! task) as [t|]; [|done]. injection Hstep as <-.
    left. unfold failed. destruct (task_owner t); try done.
    by destruct (onUnexpectedlyEnded_frame (settle task s) error)
      as (_ & _ & _ & _ & -> & _).
Qed.

(** X1.  The status bar items (stop button and spinner) are shown exactly
    while the slot is occupied. *)
Theorem status_bar_shown_while_slot_occupied (h : Host) (s : Manager) :
  reachable h s ->
  (statusBarShown s = true <-> is_Some (currentTask s)).
Proof. intros Hreach. by apply reachable_bookkeeping in Hreach as [B1 _ _ _]. Qed.

(** X2.  The parser is only ever handed lines that begin with an opening
    brace. *)
Theorem parser_only_sees_brace_lines (h : Host) (s : Manager) (line : string) :
  reachable h s ->
  line ∈ parserInput s ->
  String.prefix "{" line = true.
Proof.
  intros Hreach Hin. apply reachable_bookkeeping in Hreach as [_ B2 _ _].
  rewrite Forall_forall in B2. by apply B2.
Qed.

(** X3.  An event requests at most one kill, and only of the task that
    occupies the slot, which is a pending task started by runCargoWithCwd:
    the probe and the tasks of init and new are never killed.  Every task
    whose kill was requested so far is one the publisher was cleared for. *)
Theorem kill_only_hits_the_slot_task (h : Host) (s s' : Manager) (e : Event) :
  reachable h s ->
  dispatch e s = Some s' ->
  (killRequested s' = killRequested s \/
   exists a t, currentTask s = Some a /\ tasks s !! a = Some t /\
               task_owner t = OwnedBySlot /\
               killRequested s' = a :: killRequested s) /\
  (forall task, task ∈ killRequested s' ->
                Cleared task ∈ history (diagnosticPublisher s')).
Proof.
  intros Hreach Hstep. split.
  - destruct (dispatch_kills e s s' Hstep) as [Hsame|(a & Hcur & Hkill)];
      [by left|right].
    apply reachable_invariant in Hreach.
    destruct (inv_slot_pending s Hreach a Hcur) as (t & Hlook & Hslot).
    exists a, t. by auto using isSlotTask_owner.
  - assert (Hreach' : reachable h s').
    { destruct Hreach as [events Hrun]. exists (events ++ [e]).
      clear -Hrun Hstep. revert Hrun. generalize (init h) as s0.
      induction events as [|e0 events IH]; intros s0 Hrun; simpl in *.
      - injection Hrun as ->. by rewrite Hstep.
      - destruct (dispatch e0 s0) as [s1|]; [by apply IH | done]. }
    apply reachable_bookkeeping in Hreach' as [_ _ _ B4].
    by rewrite Forall_forall in B4.
Qed.

(** X4.  If the kill awaited by a suspended call settles while the killed
    task still occupies the slot (its end has not been reported yet), the
    call requests the kill of the same task again and suspends again. *)
Theorem kill_settled_early_kills_again (h : Host) (s : Manager) (a n : nat)
    (call : Suspended) :
  reachable h s ->
  currentTask s = Some a ->
  suspended s !! n = Some call ->
  dispatch (KillSettled n) s
  = Some (set_suspended (delete n (suspended s) ++ [call]) (kill a s)).
Proof.
  intros Hreach Hcur Hcall. apply reachable_bookkeeping in Hreach as [_ _ B3 _].
  rewrite Forall_forall in B3.
  assert (Hforce : susp_force call = true).
  { apply B3. by apply list_elem_of_lookup_2 in Hcall. }
  simpl. unfold resume. rewrite Hcall. unfold runCargo. simpl.
  rewrite Hcur, Hforce. destruct call as [c args f]. simpl in *. subst f.
  reflexivity.
Qed.

End ReachableStates.

(** ** Sequences of events *)

Section Sequences.
Context `{Collaborators}.

(** A forced run on an occupied slot, followed by the end of the slot's
    task and the settling of the awaited kill, arrives at the second half of
    runCargo with an empty slot. *)
Lemma forced_run_reissued (s : Manager) (a : nat) (t : Task) command args error :
  tasks s !! a = Some t ->
  task_owner t = OwnedBySlot ->
  currentTask s = Some a ->
  run [RunCargo command args true; Failed a error;
       KillSettled (length (suspended s))] s
  = Some (runCargo command args true
            (onUnexpectedlyEnded error
               (settle a (set_killRequested (a :: killRequested s) s)))).
Proof.
  intros Hlook Howner Hcur.
  assert (Hfirst : runCargo command args true s
                   = set_suspended
                       (suspended s ++
                        [{| susp_command := command; susp_args := args;
                            susp_force := true |}]) (kill a s)).
  { unfold runCargo. by rewrite Hcur. }
  cbn [run dispatch]. rewrite Hfirst.
  cbn [tasks set_suspended kill set_killRequested].
  rewrite Hlook. unfold failed. rewrite Howner. cbn [run dispatch].
  unfold resume.
  destruct (onUnexpectedlyEnded_frame
              (settle a
                 (set_suspended
                    (suspended s ++
                     [{| susp_command := command; susp_args := args;
                         susp_force := true |}]) (kill a s))) error)
    as (_ & _ & _ & E4 & _).
  rewrite E4. cbn [suspended settle set_tasks set_suspended kill
                   set_killRequested].
  rewrite list_lookup_middle by done. rewrite delete_middle, app_nil_r.
  cbn [susp_command susp_args susp_force]. do 2 f_equal.
  unfold onUnexpectedlyEnded. destruct error as [message|]; simpl.
  - destruct (negb _); by destruct s.
  - by destruct s.
Qed.

(** X5.  A forced run requested while a task occupies the slot wins once
    that task has ended and the awaited kill has settled: the slot then
    holds a new task with the requested vector, the old task is gone, the
    published set is empty and the call is no longer suspended. *)
Theorem forced_restart_wins (h : Host) (s : Manager) (a : nat)
    (command : string) (args : list string) (dir : string)
    (error : option string) :
  reachable h s ->
  currentTask s = Some a ->
  cwd (host s) = inr dir ->
  exists s',
    run [RunCargo command args true; Failed a error;
         KillSettled (length (suspended s))] s = Some s' /\
    currentTask s' = Some (nextTask s) /\
    tasks s' !! nextTask s
      = Some {| task_args := Args.taskArgs command args; task_cwd := dir;
                task_owner := OwnedBySlot; startTime := None |} /\
    tasks s' !! a = None /\
    published (diagnosticPublisher s') = ∅ /\
    killRequested s' = a :: killRequested s /\
    suspended s' = suspended s.
Proof.
  intros Hreach Hcur Hcwd. apply reachable_invariant in Hreach.
  destruct (inv_slot_pending s Hreach a Hcur) as (t & Hlook & Hslot).
  pose proof (inv_fresh s Hreach a t Hlook) as Hfresh.
  eexists. split.
  { apply (forced_run_reissued s a t); auto using isSlotTask_owner. }
  destruct (onUnexpectedlyEnded_frame
              (settle a (set_killRequested (a :: killRequested s) s)) error)
    as (_ & E2 & _ & E4 & E5 & E6 & E7 & E8 & _ & E10 & _).
  unfold runCargo. rewrite E2, E10. cbn [host settle set_tasks set_killRequested].
  rewrite Hcwd.
  match goal with
  | |- context [runCargoWithCwd command args dir ?s2] =>
      destruct (runCargoWithCwd_fields s2 command args dir)
        as (F1 & F2 & F3 & F4 & F5 & F6 & _)
  end.
  rewrite F1, F2, F4, F5, F6, E4, E5, E7, E8. simpl.
  repeat split.
  - by rewrite lookup_insert_eq.
  - rewrite lookup_insert_ne by lia. by rewrite lookup_delete_eq.
Qed.

(** X6.  A forced run requested while a task occupies the slot kills that
    task even when the working directory cannot be resolved: the directory
    is only asked for after the kill, so the old run is stopped, the error
    is shown, nothing is started, and the diagnostics of the old run stay
    published. *)
Theorem forced_run_without_cwd_still_kills (h : Host) (s : Manager) (a : nat)
    (command : string) (args : list string) (message : string) :
  reachable h s ->
  currentTask s = Some a ->
  cwd (host s) = inl message ->
  exists s',
    run [RunCargo command args true; Failed a None;
         KillSettled (length (suspended s))] s = Some s' /\
    currentTask s' = None /\
    tasks s' = delete a (tasks s) /\
    nextTask s' = nextTask s /\
    messages s' = messages s ++ [ErrorMessage message] /\
    killRequested s' = a :: killRequested s /\
    diagnosticPublisher s' = diagnosticPublisher s.
Proof.
  intros Hreach Hcur Hcwd. apply reachable_invariant in Hreach.
  destruct (inv_slot_pending s Hreach a Hcur) as (t & Hlook & Hslot).
  eexists. split.
  { apply (forced_run_reissued s a t); auto using isSlotTask_owner. }
  unfold runCargo. simpl. by rewrite Hcwd.
Qed.

(** X7.  With an empty slot and a working directory, invokeCargoCheckWithArgs
    followed by the exit of its probe leaves a slot task in the directory:
    check with the JSON flags and the caller's arguments if the probe exited
    with 0, and otherwise rustc with the caller's arguments, [--] and
    [-Zno-trans], without the JSON flags.  The probe is gone. *)
Theorem check_runs_after_probe (s : Manager) (args : list string)
    (exitCode now : Z) (dir : string) :
  currentTask s = None ->
  cwd (host s) = inr dir ->
  exists s',
    run [InvokeCargoCheckWithArgs args; Exited (nextTask s) exitCode now] s
      = Some s' /\
    currentTask s' = Some (S (nextTask s)) /\
    tasks s' !! S (nextTask s)
      = Some {| task_args :=
                  if bool_decide (exitCode = 0)
                  then ["check"; "--message-format"; "json"] ++ args
                  else ["rustc"] ++ args ++ ["--"; "-Zno-trans"];
                task_cwd := dir; task_owner := OwnedBySlot;
                startTime := None |} /\
    tasks s' !! nextTask s = None /\
    published (diagnosticPublisher s') = ∅.
Proof.
  intros Hcur Hcwd. eexists. split.
  { cbn [run dispatch]. unfold invokeCargoCheckWithArgs,
      checkCargoCheckAvailability, execute.
    cbn [tasks set_nextTask set_tasks]. rewrite lookup_insert_eq.
    reflexivity. }
  unfold exited, onAvailabilityKnown, Args.checkInvocation,
    Args.isAvailableFromExitCode. cbn [task_owner].
  assert (Hform :
    (if exitCode =? 0 then ("check", args)
     else ("rustc", args ++ ["--"; "-Zno-trans"]))
    = (if bool_decide (exitCode = 0) then "check" else "rustc",
       if bool_decide (exitCode = 0) then args
       else args ++ ["--"; "-Zno-trans"])).
  { case_bool_decide as Hcode.
    - by subst exitCode.
    - by destruct (Z.eqb_spec exitCode 0). }
  rewrite Hform. unfold runCargo. simpl. rewrite Hcur, Hcwd.
  match goal with
  | |- context [runCargoWithCwd ?c ?a dir ?s2] =>
      destruct (runCargoWithCwd_fields s2 c a dir) as (F1 & F2 & F3 & F4 & _)
  end.
  rewrite F1, F2, F4. simpl. repeat split.
  - rewrite lookup_insert_eq. by case_bool_decide.
  - rewrite lookup_insert_ne by lia. by rewrite lookup_delete_eq.
Qed.

End Sequences.

(** ** Runs, lines and ends *)

Section RunsAndEnds.
Context `{Collaborators}.

(** X8.  Starting a run empties the published set whether diagnostic
    publishing is enabled or not, and changing the toggle neither publishes
    nor retracts anything: with publishing disabled, a run still wipes the
    diagnostics shown before and publishes none. *)
Theorem run_clears_whatever_the_toggle (s : Manager) (command : string)
    (args : list string) (force enabled : bool) (dir : string) :
  currentTask s = None ->
  cwd (host s) = inr dir ->
  published
    (diagnosticPublisher
       (runCargo command args force (setDiagnosticPublishingEnabled enabled s)))
    = ∅ /\
  diagnosticPublishingEnabled
    (runCargo command args force (setDiagnosticPublishingEnabled enabled s))
    = enabled /\
  diagnosticPublisher (setDiagnosticPublishingEnabled enabled s)
    = diagnosticPublisher s.
Proof.
  intros Hcur Hcwd.
  assert (Hrun :
    runCargo command args force (setDiagnosticPublishingEnabled enabled s)
    = runCargoWithCwd command args dir
        (setDiagnosticPublishingEnabled enabled s)).
  { unfold runCargo. simpl. rewrite Hcur, Hcwd. by destruct force. }
  rewrite Hrun.
  destruct (runCargoWithCwd_fields (setDiagnosticPublishingEnabled enabled s)
              command args dir) as (_ & _ & _ & F4 & _ & _ & _ & _ & F9).
  by rewrite F4, F9.
Qed.

(** X9.  While publishing is enabled, a stdout line of a slot task that
    begins with a brace is handed to the parser and leads to exactly one
    publish call per diagnostic the parser returns, in their order and with
    the task's working directory; the channel does not receive the line.  A
    line for which the parser returns nothing changes neither the published
    set nor the channel. *)
Theorem json_line_publishes_each_diagnostic (s : Manager) (task : nat)
    (t : Task) (line : string) :
  tasks s !! task = Some t ->
  task_owner t = OwnedBySlot ->
  diagnosticPublishingEnabled s = true ->
  String.prefix "{" line = true ->
  exists s',
    dispatch (LineReceivedInStdout task line) s = Some s' /\
    parserInput s' = line :: parserInput s /\
    history (diagnosticPublisher s')
      = reverse ((fun fd => Published task fd (task_cwd t)) <$> parseLine line)
        ++ history (diagnosticPublisher s) /\
    published (diagnosticPublisher s')
      = fold_left (fun set fd => publish fd (task_cwd t) set) (parseLine line)
          (published (diagnosticPublisher s)) /\
    channel s' = channel s /\
    (parseLine line = [] -> diagnosticPublisher s' = diagnosticPublisher s).
Proof.
  intros Hlook Howner Hon Hjson. eexists. split.
  { simpl. rewrite Hlook. unfold lineReceivedInStdout, onLineReceivedInStdout.
    rewrite Howner, Hjson. by rewrite publishEach_enabled. }
  simpl. repeat split. intros ->. simpl. by destruct (diagnosticPublisher s).
Qed.

(** X10.  When a slot task exits, whatever its exit code, the slot is
    emptied, the status bar hidden, no message is shown, the published
    diagnostics stay, and the channel receives the exit code and the elapsed
    time, in this order. *)
Theorem exit_keeps_diagnostics (s : Manager) (task : nat) (t : Task)
    (exitCode now : Z) :
  tasks s !! task = Some t ->
  task_owner t = OwnedBySlot ->
  exists s',
    dispatch (Exited task exitCode now) s = Some s' /\
    currentTask s' = None /\
    statusBarShown s' = false /\
    messages s' = messages s /\
    diagnosticPublisher s' = diagnosticPublisher s /\
    tasks s' = delete task (tasks s) /\
    content (channel s')
      = content (channel s) ++ [CompletedWithCode exitCode;
                                ItTook (startTime t) now].
Proof.
  intros Hlook Howner. eexists. split.
  { simpl. rewrite Hlook. unfold exited. by rewrite Howner. }
  simpl. repeat split. by rewrite <- app_assoc.
Qed.

(** X11.  The start callback erases what the channel held and writes the
    banner with the whole argument vector; the time it records is the one
    the elapsed time is later computed from. *)
Theorem started_then_exited (s : Manager) (task : nat) (t : Task)
    (startedAt exitCode endedAt : Z) :
  tasks s !! task = Some t ->
  task_owner t = OwnedBySlot ->
  exists s',
    run [Started task startedAt; Exited task exitCode endedAt] s = Some s' /\
    content (channel s')
      = [Text ("Started cargo " ++ String.concat " " (task_args t) ++ newline);
         CompletedWithCode exitCode;
         ItTook (Some startedAt) endedAt] /\
    currentTask s' = None /\
    tasks s' = delete task (tasks s).
Proof.
  intros Hlook Howner. eexists. split.
  { cbn [run dispatch]. rewrite Hlook. unfold started. rewrite Howner.
    cbn [run dispatch onStarted tasks set_tasks set_channel channelAppend].
    rewrite lookup_insert_eq. unfold exited. cbn [task_owner].
    rewrite Howner. reflexivity. }
  simpl. repeat split. by rewrite delete_insert_eq.
Qed.

(** X12.  Whatever a task of init or new reports, and whatever the probe
    reports short of its exit, the slot, the status bar, the publisher, the
    parser's input, the messages and the kill requests stay as they are:
    their lines are not parsed, their failures are not reported (not even a
    missing executable), and their end does not free the slot.  A line of an
    init or new task goes to the channel as it is, on either stream; a line
    of the probe goes nowhere. *)
Theorem reports_of_other_tasks (s : Manager) (task : nat) (t : Task) (e : Event) :
  tasks s !! task = Some t ->
  task_owner t <> OwnedBySlot ->
  reportOf e = Some task ->
  (isExit e = true -> task_owner t = OwnedByScaffold) ->
  exists s',
    dispatch e s = Some s' /\
    currentTask s' = currentTask s /\
    statusBarShown s' = statusBarShown s /\
    diagnosticPublisher s' = diagnosticPublisher s /\
    parserInput s' = parserInput s /\
    messages s' = messages s /\
    killRequested s' = killRequested s /\
    (forall line, isLine e = Some line ->
       s' = match task_owner t with
            | OwnedByScaffold => channelAppend (Text (line ++ newline)) s
            | _ => s
            end).
Proof.
  intros Hlook Howner Hreport Hexit.
  destruct e; simpl in Hreport; try done; injection Hreport as ->;
    simpl; rewrite Hlook; eexists; (split; [reflexivity|]).
  - unfold started. destruct (task_owner t); by repeat split.
  - unfold lineReceivedInStdout.
    destruct (task_owner t); try done; repeat split; by intros ? [= <-].
  - unfold lineReceivedInStderr.
    destruct (task_owner t); try done; repeat split; by intros ? [= <-].
  - unfold exited. rewrite (Hexit eq_refl). by repeat split.
  - unfold failed. destruct (task_owner t); by repeat split.
Qed.

(** X13.  invokeCargoNew and invokeCargoInit start their task whatever the
    slot holds: the slot, the status bar, the publisher, the kill requests
    and the messages stay as they are, the pending tasks are all kept, and
    the channel is emptied, also of the output of a run in progress.  The
    vector is new, the name and the kind flag, respectively init, --name,
    the name and the kind flag. *)
Theorem scaffolding_starts_beside_the_slot (s : Manager) (name cwd : string)
    (isBin : bool) (crateType : Args.CrateType) :
  startedBeside s (invokeCargoNew name isBin cwd s)
    {| task_args := ["new"; name; if isBin then "--bin" else "--lib"];
       task_cwd := cwd; task_owner := OwnedByScaffold; startTime := None |} /\
  startedBeside s (invokeCargoInit crateType name cwd s)
    {| task_args := ["init"; "--name"; name;
                     match crateType with
                     | Args.Application => "--bin"
                     | Args.Library => "--lib"
                     end];
       task_cwd := cwd; task_owner := OwnedByScaffold; startTime := None |}.
Proof.
  split.
  - unfold startedBeside, invokeCargoNew, execute. simpl.
    destruct (showOutput (host s)); simpl;
      rewrite ?orb_true_r, ?orb_false_r; by repeat split.
  - unfold startedBeside, invokeCargoInit, execute. simpl.
    destruct (showOutput (host s)); simpl;
      rewrite ?orb_true_r, ?orb_false_r; repeat split; by destruct crateType.
Qed.

(** X14.  stopTask does nothing on an empty slot.  On an occupied slot it
    only requests the kill: the slot stays occupied, so an unforced run
    requested right after is still dropped; when the task then ends without
    an error, the slot is emptied, the status bar hidden and no message is
    shown. *)
Theorem stop_does_not_free_the_slot (h : Host) (s : Manager) :
  reachable h s ->
  (currentTask s = None -> stopTask s = s) /\
  (forall a, currentTask s = Some a ->
     stopTask s = kill a s /\
     currentTask (stopTask s) = Some a /\
     (forall command args,
        runCargo command args false (stopTask s) = stopTask s) /\
     exists s',
       dispatch (Failed a None) (stopTask s) = Some s' /\
       currentTask s' = None /\
       statusBarShown s' = false /\
       messages s' = messages s /\
       diagnosticPublisher s' = diagnosticPublisher s).
Proof.
  intros Hreach. apply reachable_invariant in Hreach. split.
  - intros Hcur. unfold stopTask. by rewrite Hcur.
  - intros a Hcur.
    destruct (inv_slot_pending s Hreach a Hcur) as (t & Hlook & Hslot).
    apply isSlotTask_owner in Hslot.
    assert (Hstop : stopTask s = kill a s).
    { unfold stopTask. by rewrite Hcur. }
    rewrite Hstop. repeat split; try done.
    + intros command args. unfold runCargo. simpl. by rewrite Hcur.
    + eexists. split.
      { simpl. rewrite Hlook. unfold failed. by rewrite Hslot. }
      by repeat split.
Qed.

End RunsAndEnds.

(** ** The command facade *)

Section FacadeProofs.
Context `{Collaborators}.

Lemma truthy_None (value : option string) :
  truthy value = None <-> value = None \/ value = Some "".
Proof.
  destruct value as [[|c text]|]; simpl; split; auto; try done.
  by intros [|].
Qed.

Lemma truthy_Some (value : option string) (text : string) :
  truthy value = Some text <-> value = Some text /\ text <> "".
Proof.
  destruct value as [[|c rest]|]; simpl; split; try done.
  - by intros [[= <-] ?].
  - by intros [= <-].
  - by intros [[= <-] _].
  - by intros [? _].
Qed.

(** X15.  The command that creates a project starts cargo new exactly when
    the workspace root and the entered name are both present and not empty.
    Without a root the error message is shown and the name is not asked for;
    with a root and no name (the input was cancelled or left empty) nothing
    happens at all. *)
Theorem project_needs_root_and_name (h : Host) (s : Manager) (isBin : bool)
    (rootPath name : option string) :
  reachable h s ->
  (rootPath = None \/ rootPath = Some "" ->
   createProject isBin rootPath name s
   = showErrorMessage "Current document not in the workspace" s) /\
  (forall cwd, rootPath = Some cwd -> cwd <> "" ->
               name = None \/ name = Some "" ->
               createProject isBin rootPath name s = s) /\
  (forall cwd projectName,
     rootPath = Some cwd -> cwd <> "" ->
     name = Some projectName -> projectName <> "" ->
     createProject isBin rootPath name s
     = invokeCargoNew projectName isBin cwd s) /\
  (tasks (createProject isBin rootPath name s) <> tasks s <->
   exists cwd projectName,
     rootPath = Some cwd /\ cwd <> "" /\
     name = Some projectName /\ projectName <> "").
Proof.
  intros Hreach. apply reachable_invariant in Hreach.
  assert (Hfresh : tasks s !! nextTask s = None).
  { destruct (tasks s !! nextTask s) as [t|] eqn:Hlook; [|done].
    apply (inv_fresh s Hreach) in Hlook. lia. }
  unfold createProject, createProjectCommand, projectNameEntered.
  split; [|split; [|split]].
  - intros Hroot. apply truthy_None in Hroot. by rewrite Hroot.
  - intros cwd Hroot Hcwd Hname.
    assert (E : truthy rootPath = Some cwd) by by apply truthy_Some.
    apply truthy_None in Hname. by rewrite E, Hname.
  - intros cwd projectName Hroot Hcwd Hname Hproject.
    assert (E1 : truthy rootPath = Some cwd) by by apply truthy_Some.
    assert (E2 : truthy name = Some projectName) by by apply truthy_Some.
    by rewrite E1, E2.
  - destruct (truthy rootPath) as [cwd|] eqn:E1.
    + destruct (truthy name) as [projectName|] eqn:E2.
      * apply truthy_Some in E1 as [-> Hcwd].
        apply truthy_Some in E2 as [-> Hproject]. split.
        -- intros _. by exists cwd, projectName.
        -- intros _ E. apply (f_equal (fun m => m !! nextTask s)) in E.
           rewrite Hfresh in E. revert E. unfold invokeCargoNew, execute.
           simpl. destruct (showOutput (host s)); simpl;
             by rewrite lookup_insert_eq.
      * split; [done|]. intros (cwd' & projectName & _ & _ & -> & Hproject).
        apply truthy_None in E2 as [E2|E2]; congruence.
    + split; [done|]. intros (cwd & projectName & -> & Hcwd & _).
      apply truthy_None in E1 as [E1|E1]; congruence.
Qed.

(** X16.  The playground command does nothing but log when the quick pick is
    cancelled; when the temporary directory cannot be created it logs and
    shows an error and starts nothing; otherwise it starts cargo init in the
    directory, for a crate named playground_ and the picked type, as a
    binary for the type application and as a library for any other.  The
    folder is opened when that task exits, whatever its exit code, and is not
    opened when the task fails; in both cases the slot and the messages stay
    as they were. *)
Theorem playground_opens_on_any_exit (f : CargoManager)
    (playgroundProjectType err path : string) (result : string + string)
    (exitCode now : Z) (error : option string) :
  helpCreatePlayground None result f
  = log (LogDebug "helpCreatePlayground: " "quick pick has been cancelled") f /\
  cargoManager (helpCreatePlayground (Some playgroundProjectType) (inl err) f)
  = showErrorMessage "Temporary directory creation failed" (cargoManager f) /\
  logged (helpCreatePlayground (Some playgroundProjectType) (inl err) f)
  = logged f ++ [LogError ("Temporary directory creation failed: " ++ err)] /\
  tasks (cargoManager
           (helpCreatePlayground (Some playgroundProjectType) (inr path) f))
  !! nextTask (cargoManager f)
  = Some {| task_args :=
              ["init"; "--name"; ("playground_" ++ playgroundProjectType)%string;
               if String.eqb playgroundProjectType "application"
               then "--bin" else "--lib"];
            task_cwd := path; task_owner := OwnedByScaffold;
            startTime := None |} /\
  (exists f',
     taskExited (nextTask (cargoManager f)) exitCode now
       (helpCreatePlayground (Some playgroundProjectType) (inr path) f)
     = Some f' /\
     openedFolders f' = openedFolders f ++ [path] /\
     currentTask (cargoManager f') = currentTask (cargoManager f) /\
     messages (cargoManager f') = messages (cargoManager f)) /\
  (exists f',
     taskFailed (nextTask (cargoManager f)) error
       (helpCreatePlayground (Some playgroundProjectType) (inr path) f)
     = Some f' /\
     openedFolders f' = openedFolders f /\
     currentTask (cargoManager f') = currentTask (cargoManager f) /\
     messages (cargoManager f') = messages (cargoManager f)).
Proof.
  assert (Hlook :
    tasks (cargoManager
             (helpCreatePlayground (Some playgroundProjectType) (inr path) f))
    !! nextTask (cargoManager f)
    = Some {| task_args :=
                ["init"; "--name"; ("playground_" ++ playgroundProjectType)%string;
                 if String.eqb playgroundProjectType "application"
                 then "--bin" else "--lib"];
              task_cwd := path; task_owner := OwnedByScaffold;
              startTime := None |}).
  { unfold helpCreatePlayground, playgroundTypePicked,
      temporaryDirectoryCreated, invokeCargoInit, execute. simpl.
    destruct (showOutput (host (cargoManager f))); simpl;
      rewrite lookup_insert_eq;
      by destruct (String.eqb playgroundProjectType "application"). }
  split; [done|]. split; [done|]. split; [done|]. split; [exact Hlook|].
  split.
  - unfold taskExited. cbn [dispatch]. rewrite Hlook. eexists.
    split; [reflexivity|]. cbn [openedFolders playgrounds cargoManager].
    unfold helpCreatePlayground, playgroundTypePicked,
      temporaryDirectoryCreated. cbn [playgrounds openedFolders].
    rewrite lookup_insert_eq. split; [done|].
    unfold exited, invokeCargoInit, execute. simpl.
    by destruct (showOutput (host (cargoManager f))).
  - unfold taskFailed. cbn [dispatch]. rewrite Hlook. eexists.
    split; [reflexivity|]. cbn [openedFolders playgrounds cargoManager].
    split; [done|].
    unfold failed, helpCreatePlayground, playgroundTypePicked,
      temporaryDirectoryCreated, invokeCargoInit, execute. simpl.
    by destruct (showOutput (host (cargoManager f))).
Qed.

End FacadeProofs.

(** ** The further properties at concrete states *)

Lemma reachable_awaitingKill : reachable Demo.host Scenario.awaitingKill.
Proof.
  exists [InvokeCargo "build" []; InvokeCargo "test" ["--lib"]].
  vm_compute. reflexivity.
Defined.

Lemma reachable_lostWorkspace : reachable Demo.host Scenario.lostWorkspace.
Proof.
  exists [InvokeCargo "build" []; HostChanged Demo.hostWithoutWorkspace].
  vm_compute. reflexivity.
Defined.

Lemma afterBuild_task : tasks Demo.afterBuild !! 0%nat = Some Scenario.buildTask.
Proof. vm_compute. reflexivity. Defined.

Lemma afterBuild_slot : currentTask Demo.afterBuild = Some 0%nat.
Proof. vm_compute. reflexivity. Defined.

Lemma status_bar_shown_while_slot_occupied_witness :
  statusBarShown Demo.afterBuild = true <-> is_Some (currentTask Demo.afterBuild).
Proof.
  apply (status_bar_shown_while_slot_occupied Demo.host Demo.afterBuild
           reachable_afterBuild).
Defined.

Lemma parser_only_sees_brace_lines_witness :
  String.prefix "{" "{src/a.rs" = true.
Proof.
  apply (parser_only_sees_brace_lines Demo.host Demo.afterRestart "{src/a.rs"
           reachable_afterRestart).
  assert (E : parserInput Demo.afterRestart = ["{src/b.rs"; "{src/a.rs"])
    by (vm_compute; reflexivity).
  rewrite E. apply list_elem_of_further, list_elem_of_here.
Defined.

Lemma kill_only_hits_the_slot_task_witness :
  killRequested (stopTask Demo.afterBuild) = killRequested Demo.afterBuild \/
  exists a t, currentTask Demo.afterBuild = Some a /\
              tasks Demo.afterBuild !! a = Some t /\
              task_owner t = OwnedBySlot /\
              killRequested (stopTask Demo.afterBuild)
              = a :: killRequested Demo.afterBuild.
Proof.
  apply (kill_only_hits_the_slot_task Demo.host Demo.afterBuild
           (stopTask Demo.afterBuild) StopTask reachable_afterBuild eq_refl).
Defined.

Lemma kill_settled_early_kills_again_witness :
  dispatch (KillSettled 0) Scenario.awaitingKill
  = Some (set_suspended
            (delete 0%nat (suspended Scenario.awaitingKill)
             ++ [{| susp_command := "test"; susp_args := ["--lib"];
                    susp_force := true |}])
            (kill 0 Scenario.awaitingKill)).
Proof.
  apply (kill_settled_early_kills_again Demo.host Scenario.awaitingKill 0 0
           _ reachable_awaitingKill).
  - vm_compute. reflexivity.
  - vm_compute. reflexivity.
Defined.

Lemma forced_restart_wins_witness :
  exists s',
    run [RunCargo "test" ["--lib"] true; Failed 0 None;
         KillSettled (length (suspended Demo.afterBuild))] Demo.afterBuild
      = Some s' /\
    currentTask s' = Some (nextTask Demo.afterBuild) /\
    published (diagnosticPublisher s') = ∅.
Proof.
  assert (Hcwd : cwd (host Demo.afterBuild) = inr "/work")
    by (vm_compute; reflexivity).
  destruct (forced_restart_wins Demo.host Demo.afterBuild 0 "test" ["--lib"]
              "/work" None reachable_afterBuild afterBuild_slot Hcwd)
    as (s' & Hrun & Hcur & _ & _ & Hempty & _).
  exists s'. split; [exact Hrun|]. split; [exact Hcur | exact Hempty].
Defined.

Lemma forced_run_without_cwd_still_kills_witness :
  exists s',
    run [RunCargo "test" [] true; Failed 0 None;
         KillSettled (length (suspended Scenario.lostWorkspace))]
      Scenario.lostWorkspace = Some s' /\
    currentTask s' = None /\
    nextTask s' = nextTask Scenario.lostWorkspace /\
    messages s'
    = messages Scenario.lostWorkspace
      ++ [ErrorMessage "Current document not in the workspace"].
Proof.
  assert (Hcur : currentTask Scenario.lostWorkspace = Some 0%nat)
    by (vm_compute; reflexivity).
  assert (Hcwd : cwd (host Scenario.lostWorkspace)
                 = inl "Current document not in the workspace")
    by (vm_compute; reflexivity).
  destruct (forced_run_without_cwd_still_kills Demo.host Scenario.lostWorkspace
              0 "test" [] "Current document not in the workspace"
              reachable_lostWorkspace Hcur Hcwd)
    as (s' & Hrun & Hslot & _ & Hnext & Hmsg & _).
  exists s'. split; [exact Hrun|]. split; [exact Hslot|].
  split; [exact Hnext | exact Hmsg].
Defined.

Lemma check_runs_after_probe_witness :
  exists s',
    run [InvokeCargoCheckWithArgs ["--lib"]; Exited (nextTask Demo.start) 101 7]
      Demo.start = Some s' /\
    tasks s' !! S (nextTask Demo.start)
    = Some {| task_args := ["rustc"; "--lib"; "--"; "-Zno-trans"];
              task_cwd := "/work"; task_owner := OwnedBySlot;
              startTime := None |}.
Proof.
  destruct (check_runs_after_probe Demo.start ["--lib"] 101 7 "/work"
              eq_refl eq_refl) as (s' & Hrun & _ & Hlook & _).
  exists s'. split; [exact Hrun | exact Hlook].
Defined.

Lemma run_clears_whatever_the_toggle_witness :
  published
    (diagnosticPublisher
       (runCargo "build" [] true
          (setDiagnosticPublishingEnabled false Demo.start))) = ∅.
Proof.
  apply (run_clears_whatever_the_toggle Demo.start "build" [] true false
           "/work" eq_refl eq_refl).
Defined.

Lemma json_line_publishes_each_diagnostic_witness :
  exists s',
    dispatch (LineReceivedInStdout 0 "{src/lib.rs") Demo.afterBuild = Some s' /\
    parserInput s' = "{src/lib.rs" :: parserInput Demo.afterBuild /\
    channel s' = channel Demo.afterBuild.
Proof.
  assert (Hon : diagnosticPublishingEnabled Demo.afterBuild = true)
    by (vm_compute; reflexivity).
  destruct (json_line_publishes_each_diagnostic Demo.afterBuild 0
              Scenario.buildTask "{src/lib.rs" afterBuild_task eq_refl Hon
              eq_refl) as (s' & Hstep & Hparsed & _ & _ & Hchannel & _).
  exists s'. split; [exact Hstep|]. split; [exact Hparsed | exact Hchannel].
Defined.

Lemma exit_keeps_diagnostics_witness :
  exists s',
    dispatch (Exited 0 101 9) Demo.afterBuild = Some s' /\
    currentTask s' = None /\
    messages s' = messages Demo.afterBuild /\
    diagnosticPublisher s' = diagnosticPublisher Demo.afterBuild.
Proof.
  destruct (exit_keeps_diagnostics Demo.afterBuild 0 Scenario.buildTask 101 9
              afterBuild_task eq_refl)
    as (s' & Hstep & Hslot & _ & Hmsg & Hpub & _).
  exists s'. split; [exact Hstep|]. split; [exact Hslot|].
  split; [exact Hmsg | exact Hpub].
Defined.

Lemma started_then_exited_witness :
  exists s',
    run [Started 0 1000; Exited 0 0 3500] Demo.afterBuild = Some s' /\
    content (channel s')
    = [Text ("Started cargo "
             ++ String.concat " " (task_args Scenario.buildTask) ++ newline);
       CompletedWithCode 0; ItTook (Some 1000) 3500].
Proof.
  destruct (started_then_exited Demo.afterBuild 0 Scenario.buildTask 1000 0 3500
              afterBuild_task eq_refl) as (s' & Hrun & Hcontent & _).
  exists s'. split; [exact Hrun | exact Hcontent].
Defined.

Lemma reports_of_other_tasks_witness :
  exists s',
    dispatch (Failed 0 (Some "ENOENT")) Scenario.scaffolding = Some s' /\
    messages s' = messages Scenario.scaffolding /\
    currentTask s' = currentTask Scenario.scaffolding.
Proof.
  assert (Hlook : tasks Scenario.scaffolding !! 0%nat
                  = Some {| task_args := ["new"; "demo"; "--bin"];
                            task_cwd := "/work"; task_owner := OwnedByScaffold;
                            startTime := None |})
    by (vm_compute; reflexivity).
  destruct (reports_of_other_tasks Scenario.scaffolding 0 _
              (Failed 0 (Some "ENOENT")) Hlook)
    as (s' & Hstep & Hslot & _ & _ & _ & Hmsg & _).
  - discriminate.
  - reflexivity.
  - discriminate.
  - exists s'. split; [exact Hstep|]. split; [exact Hmsg | exact Hslot].
Defined.

Lemma stop_does_not_free_the_slot_witness :
  stopTask Demo.afterBuild = kill 0 Demo.afterBuild /\
  currentTask (stopTask Demo.afterBuild) = Some 0%nat.
Proof.
  destruct (stop_does_not_free_the_slot Demo.host Demo.afterBuild
              reachable_afterBuild) as [_ Hbusy].
  destruct (Hbusy 0%nat afterBuild_slot) as (Hstop & Hslot & _).
  split; [exact Hstop | exact Hslot].
Defined.

Lemma project_needs_root_and_name_witness :
  createProject true (Some "/work") (Some "demo") Demo.start
  = invokeCargoNew "demo" true "/work" Demo.start.
Proof.
  assert (Hreach : reachable Demo.host Demo.start) by (by exists []).
  destruct (project_needs_root_and_name Demo.host Demo.start true
              (Some "/work") (Some "demo") Hreach) as (_ & _ & Hnew & _).
  apply (Hnew "/work" "demo"); [reflexivity | discriminate | reflexivity
                               | discriminate].
Defined.
